(** * Cocai: the agent wiring of [main.py]

    A shallow embedding of [main.py]: the module-level start-up code, the
    two constructors [create_callback_manager] and [create_agent], the three
    web handlers [factory], [cleanup] and [main], and the terminal entry
    point.  Python objects that are shared and mutated live in an explicit
    [World]; every function that can raise is a computation in the monad
    [M], which threads the world and carries the exception. *)

From Stdlib Require Import ZArith String Ascii DecimalString Lia.
From stdpp Require Import base option list gmap strings.
From Equations Require Import Equations.

Local Open Scope string_scope.
Local Open Scope list_scope.

(** ** Python strings *)

Module Str.

(** [strip_prefix p s] is [Some t] exactly when [s = p + t]: the test
    [s.startswith(p)] together with the text that follows the match. *)
Fixpoint strip_prefix (p s : string) : option string :=
  match p, s with
  | EmptyString, _ => Some s
  | String a p', String b s' =>
      if Ascii.eqb a b then strip_prefix p' s' else None
  | String _ _, EmptyString => None
  end.

(** [sub in s]. *)
Fixpoint contains (sub s : string) : bool :=
  match strip_prefix sub s with
  | Some _ => true
  | None =>
      match s with
      | EmptyString => false
      | String _ s' => contains sub s'
      end
  end.

(** [c in s] for a single character. *)
Fixpoint mem (c : ascii) (s : string) : bool :=
  match s with
  | EmptyString => false
  | String b s' => Ascii.eqb c b || mem c s'
  end.

Lemma strip_prefix_length p s t :
  strip_prefix p s = Some t ->
  String.length s = (String.length p + String.length t)%nat.
Proof.
  revert s; induction p as [|a p IH]; intros [|b s]; simpl; try congruence.
  - intros [= <-]; reflexivity.
  - intros [= <-]; reflexivity.
  - destruct (Ascii.eqb a b); [|congruence].
    intros H; apply IH in H; lia.
Qed.

(** [s.replace(old, new)] for a non-empty [old = String o old']: scan from
    the left; at a match emit [new] and go on after the match, otherwise
    copy one character. *)
Equations? replace_nonempty (o : ascii) (old' new s : string) : string
  by wf (String.length s) lt :=
  replace_nonempty o old' new EmptyString := EmptyString;
  replace_nonempty o old' new (String c s')
    with Equations.Prop.Logic.inspect (strip_prefix (String o old') (String c s')) => {
    | exist _ (Some t) _ := new +:+ replace_nonempty o old' new t;
    | exist _ None _ := String c (replace_nonempty o old' new s') }.
Proof.
  change (strip_prefix (String o old') (String c s') = Some t) in e.
  apply strip_prefix_length in e. simpl in *. lia.
Qed.

(** With an empty [old] Python puts [new] before every character and at
    the end. *)
Fixpoint interleave (new s : string) : string :=
  match s with
  | EmptyString => new
  | String c s' => new +:+ String c (interleave new s')
  end.

Definition replace (old new s : string) : string :=
  match old with
  | EmptyString => interleave new s
  | String o old' => replace_nonempty o old' new s
  end.

(** Every character of [s] is absent from [t]. *)
Fixpoint all_outside (s t : string) : bool :=
  match s with
  | EmptyString => true
  | String c s' => negb (mem c t) && all_outside s' t
  end.

(** [str(n)] for an [int]. *)
Definition str_int (n : Z) : string := NilZero.string_of_int (Z.to_int n).

End Str.

(** ** Python values used by [main.py] *)

(** Exceptions, by the two classes the handlers of [main.py] tell apart:
    [except Exception] and [except KeyboardInterrupt].  [Exception cls msg]
    stands for every instance of [Exception] and its subclasses; the other
    constructors derive from [BaseException] only. *)
Inductive PyExn :=
| KeyboardInterrupt
| SystemExit
| OtherBaseException (cls : string)
| Exception (cls msg : string).

#[global] Instance PyExn_eq_dec : EqDecision PyExn.
Proof. solve_decision. Defined.

(** [isinstance(e, Exception)]. *)
Definition is_Exception (e : PyExn) : bool :=
  match e with Exception _ _ => true | _ => false end.

(** [isinstance(e, KeyboardInterrupt)]. *)
Definition is_KeyboardInterrupt (e : PyExn) : bool :=
  match e with KeyboardInterrupt => true | _ => false end.

(** [str(e)], as the f-string of the warning formats it. *)
Definition str_exn (e : PyExn) : string :=
  match e with Exception _ msg => msg | _ => "" end.

Inductive Level := DEBUG | INFO | WARNING.

Definition level_no (l : Level) : nat :=
  match l with DEBUG => 10 | INFO => 20 | WARNING => 30 end.

Record LogRecord := { levelname : Level; message : string }.

Inductive Role := USER | ASSISTANT.

Record ChatMessage := { role : Role; content : string }.

#[global] Instance Role_eq_dec : EqDecision Role.
Proof. solve_decision. Defined.

#[global] Instance ChatMessage_eq_dec : EqDecision ChatMessage.
Proof. solve_decision. Defined.

(** A [SimpleChatStore] maps a key to the ordered list of its messages. *)
Abbreviation SimpleChatStore := (gmap string (list ChatMessage)).

(** A [ChatMemoryBuffer] is a view on a store object under one key; the
    store is held by reference. *)
Record ChatMemoryBuffer := { memory_store : nat; chat_store_key : string }.

Inductive Handler :=
| LlamaDebugHandler (logger_name : string)
| OpenInferenceTraceCallbackHandler
| LlamaIndexCallbackHandler.

Record CallbackManager := { manager_id : nat; handlers : list Handler }.

(** The three callables imported from [tools]. *)
Inductive ToolFn := suggest_choices | roll_a_dice | roll_a_skill.

(** [fn.__name__], the name [FunctionTool.from_defaults] gives the tool. *)
Definition fn_name (f : ToolFn) : string :=
  match f with
  | suggest_choices => "suggest_choices"
  | roll_a_dice => "roll_a_dice"
  | roll_a_skill => "roll_a_skill"
  end.

Record FunctionTool := { fn : ToolFn; tool_name : string; return_direct : bool }.

(** [FunctionTool.from_defaults(fn, return_direct=...)]; the keyword is
    optional and [False] when left out. *)
Definition FunctionTool_from_defaults (f : ToolFn) (rd : option bool) : FunctionTool :=
  {| fn := f; tool_name := fn_name f; return_direct := default false rd |}.

Record AgentRunner := {
  agent_id : nat;
  tools : list FunctionTool;
  verbose : bool;
  max_iterations : nat;
  memory : ChatMemoryBuffer;
  prompts : gmap string string }.

(** [agent.update_prompts(d)]: the entries of [d] take the place of the
    agent's prompts of the same key. *)
Definition update_prompts (d : gmap string string) (a : AgentRunner) : AgentRunner :=
  {| agent_id := agent_id a; tools := tools a; verbose := verbose a;
     max_iterations := max_iterations a; memory := memory a;
     prompts := d ∪ prompts a |}.

(** What the process does to the persisted store, in order. *)
Inductive IOEvent :=
| Loaded (path : string)
| Persisted (path : string) (text : string).

(** ** The world *)

(** The module-level names of [main.py] ([chat_store], [chat_memory],
    [Settings.callback_manager]), the objects they point to, the session
    slots of the web front-end and the part of the environment the program
    touches. *)
Record World := {
  files : gmap string string;
  io : list IOEvent;
  log : list LogRecord;
  sent : list (nat * string);
  logger_levels : gmap string Level;
  stores : gmap nat SimpleChatStore;
  next_id : nat;
  chat_store : nat;
  chat_memory : ChatMemoryBuffer;
  Settings_callback_manager : CallbackManager;
  user_session : gmap nat AgentRunner }.

(** The store object at a location; an unallocated location reads as the
    empty store. *)
Definition store_at (w : World) (l : nat) : SimpleChatStore :=
  default ∅ (stores w !! l).

(** [memory.get_all()]. *)
Definition memory_get_all (m : ChatMemoryBuffer) (w : World) : list ChatMessage :=
  default [] (store_at w (memory_store m) !! chat_store_key m).

Definition set_files (f : gmap string string) (w : World) : World :=
  {| files := f; io := io w; log := log w; sent := sent w;
     logger_levels := logger_levels w; stores := stores w;
     next_id := next_id w; chat_store := chat_store w;
     chat_memory := chat_memory w;
     Settings_callback_manager := Settings_callback_manager w;
     user_session := user_session w |}.

Definition set_io (t : list IOEvent) (w : World) : World :=
  {| files := files w; io := t; log := log w; sent := sent w;
     logger_levels := logger_levels w; stores := stores w;
     next_id := next_id w; chat_store := chat_store w;
     chat_memory := chat_memory w;
     Settings_callback_manager := Settings_callback_manager w;
     user_session := user_session w |}.

Definition set_log (l : list LogRecord) (w : World) : World :=
  {| files := files w; io := io w; log := l; sent := sent w;
     logger_levels := logger_levels w; stores := stores w;
     next_id := next_id w; chat_store := chat_store w;
     chat_memory := chat_memory w;
     Settings_callback_manager := Settings_callback_manager w;
     user_session := user_session w |}.

Definition set_sent (l : list (nat * string)) (w : World) : World :=
  {| files := files w; io := io w; log := log w; sent := l;
     logger_levels := logger_levels w; stores := stores w;
     next_id := next_id w; chat_store := chat_store w;
     chat_memory := chat_memory w;
     Settings_callback_manager := Settings_callback_manager w;
     user_session := user_session w |}.

Definition set_logger_levels (l : gmap string Level) (w : World) : World :=
  {| files := files w; io := io w; log := log w; sent := sent w;
     logger_levels := l; stores := stores w;
     next_id := next_id w; chat_store := chat_store w;
     chat_memory := chat_memory w;
     Settings_callback_manager := Settings_callback_manager w;
     user_session := user_session w |}.

Definition set_stores (h : gmap nat SimpleChatStore) (w : World) : World :=
  {| files := files w; io := io w; log := log w; sent := sent w;
     logger_levels := logger_levels w; stores := h;
     next_id := next_id w; chat_store := chat_store w;
     chat_memory := chat_memory w;
     Settings_callback_manager := Settings_callback_manager w;
     user_session := user_session w |}.

Definition set_next_id (n : nat) (w : World) : World :=
  {| files := files w; io := io w; log := log w; sent := sent w;
     logger_levels := logger_levels w; stores := stores w;
     next_id := n; chat_store := chat_store w;
     chat_memory := chat_memory w;
     Settings_callback_manager := Settings_callback_manager w;
     user_session := user_session w |}.

Definition set_Settings_callback_manager (m : CallbackManager) (w : World) : World :=
  {| files := files w; io := io w; log := log w; sent := sent w;
     logger_levels := logger_levels w; stores := stores w;
     next_id := next_id w; chat_store := chat_store w;
     chat_memory := chat_memory w;
     Settings_callback_manager := m;
     user_session := user_session w |}.

Definition set_user_session (u : gmap nat AgentRunner) (w : World) : World :=
  {| files := files w; io := io w; log := log w; sent := sent w;
     logger_levels := logger_levels w; stores := stores w;
     next_id := next_id w; chat_store := chat_store w;
     chat_memory := chat_memory w;
     Settings_callback_manager := Settings_callback_manager w;
     user_session := u |}.

(** ** Computations that mutate the world and may raise *)

Definition M (A : Type) : Type := World -> (PyExn + A) * World.

#[global] Instance M_ret : MRet M := fun A x w => (inr x, w).

#[global] Instance M_bind : MBind M := fun A B k m w =>
  match m w with
  | (inl e, w') => (inl e, w')
  | (inr x, w') => k x w'
  end.

Definition raise {A} (e : PyExn) : M A := fun w => (inl e, w).

Definition gets {A} (f : World -> A) : M A := fun w => (inr (f w), w).

Definition modify (f : World -> World) : M unit := fun w => (inr tt, f w).

(** [try: body except C: handler], where [catches e] is [isinstance(e, C)]. *)
Definition try_except {A} (body : M A) (catches : PyExn -> bool)
    (handler : PyExn -> M A) : M A :=
  fun w => match body w with
           | (inl e, w') => if catches e then handler e w' else (inl e, w')
           | r => r
           end.

(** A fresh object identity. *)
Definition fresh : M nat :=
  fun w => (inr (next_id w), set_next_id (S (next_id w)) w).

(** [open(path).read()]. *)
Definition open_read (path : string) : M string :=
  fun w => match files w !! path with
           | Some text => (inr text, w)
           | None =>
               (inl (Exception "FileNotFoundError"
                       ("[Errno 2] No such file or directory: '" +:+ path +:+ "'")), w)
           end.

(** ** Logging

    [logging.basicConfig(level=logging.INFO, ..., force=True)] sets the root
    level; a logger without a level of its own inherits it. *)

Definition root_logger : string := "root".

(** [__name__], the name of the module-level [logger]. *)
Definition module_name : string := "main".

Definition isEnabledFor (levels : gmap string Level) (name : string) (l : Level) : bool :=
  Nat.leb
    (level_no (default (default WARNING (levels !! root_logger)) (levels !! name)))
    (level_no l).

Definition emit (levels : gmap string Level) (name : string) (l : Level)
    (msg : string) (records : list LogRecord) : list LogRecord :=
  if isEnabledFor levels name l
  then records ++ [{| levelname := l; message := msg |}]
  else records.

Definition logger_warning (msg : string) : M unit :=
  modify (fun w => set_log (emit (logger_levels w) module_name WARNING msg (log w)) w).

(** [logging.getLogger(name).setLevel(l)]. *)
Definition setLevel (name : string) (l : Level) : M unit :=
  modify (fun w => set_logger_levels (<[name := l]> (logger_levels w)) w).

(** ** The collaborators outside [main.py] *)

(** One reasoning step of the agent: answer, or call a tool by name. *)
Inductive Action :=
| FinalAnswer (text : string)
| CallTool (name args : string).

Record Step := { step_tool : string; step_args : string; observation : string }.

(** What [main.py] takes from the libraries it wires together and from
    [tools.py]: the loader and the serialiser of [SimpleChatStore], the
    exception, if any, with which [PromptTemplate] turns a text down (the
    [ValueError] of the format-string parser), the defaults of
    [ReActAgent.from_tools], the language model, the bodies of the three
    tools, and the terminal loop [AgentRunner.chat_repl]. *)
Class External := {
  from_persist_path : gmap string string -> string -> PyExn + SimpleChatStore;
  to_json : SimpleChatStore -> string;
  template_error : string -> option PyExn;
  DEFAULT_MAX_ITERATIONS : nat;
  DEFAULT_PROMPTS : gmap string string;
  llm : string -> list ChatMessage -> string -> list Step -> Action;
  call_tool : ToolFn -> string -> string;
  chat_repl : AgentRunner -> M unit }.

Section Program.
Context `{External}.

(** [store.persist(persist_path=...)]: the file is opened for writing, so
    the serialised store takes the place of whatever the file held. *)
Definition persist (store : nat) (persist_path : string) : M unit :=
  modify (fun w =>
    let text := to_json (store_at w store) in
    set_io (io w ++ [Persisted persist_path text])
      (set_files (<[persist_path := text]> (files w)) w)).

(** ** Module start-up (lines 52 to 60) *)

(** The [try]/[except Exception] around the loader, as run at import: the
    store to use and the records logged, or the exception that escapes.
    The root level at that point is [INFO]. *)
Definition load_chat_store (fs : gmap string string)
  : PyExn + (SimpleChatStore * list LogRecord) :=
  match from_persist_path fs "chat_store.json" with
  | inr loaded => inr (loaded, [])
  | inl e =>
      if is_Exception e
      then inr (∅, emit {[root_logger := INFO]} module_name WARNING
                     ("Failed to load chat store from file: " +:+ str_exn e
                        +:+ ", using a new one.") [])
      else inl e
  end.

(** The world after the module body has run on the file system [fs].  The
    two [logger.debug] calls of lines 41 to 45 are below the root level and
    leave no record.  Object 0 is the chat store, object 1 the library's
    initial callback manager. *)
Definition module_init (fs : gmap string string) : PyExn + World :=
  match load_chat_store fs with
  | inl e => inl e
  | inr (store, records) =>
      inr {| files := fs;
             io := [Loaded "chat_store.json"];
             log := records;
             sent := [];
             logger_levels := {[root_logger := INFO]};
             stores := {[0 := store]};
             next_id := 2;
             chat_store := 0;
             chat_memory := {| memory_store := 0; chat_store_key := "user1" |};
             Settings_callback_manager := {| manager_id := 1; handlers := [] |};
             user_session := ∅ |}
  end.

(** ** [create_callback_manager] and [create_agent] *)

Definition create_callback_manager (should_use_chainlit : bool) : M CallbackManager :=
  let debug_logger := "debug" in
  setLevel debug_logger DEBUG;;
  let callback_handlers :=
    [LlamaDebugHandler debug_logger; OpenInferenceTraceCallbackHandler] in
  let callback_handlers :=
    if should_use_chainlit
    then callback_handlers ++ [LlamaIndexCallbackHandler]
    else callback_handlers in
  i ← fresh;
  mret {| manager_id := i; handlers := callback_handlers |}.

(** [ReActAgent.from_tools(tools=..., verbose=..., max_iterations=...,
    memory=...)]; [max_iterations] is optional and falls back to the
    library's default. *)
Definition ReActAgent_from_tools (tools : list FunctionTool) (verbose : bool)
    (max_iterations : option nat) (memory : ChatMemoryBuffer) : M AgentRunner :=
  i ← fresh;
  mret {| agent_id := i; tools := tools; verbose := verbose;
          max_iterations := default DEFAULT_MAX_ITERATIONS max_iterations;
          memory := memory; prompts := DEFAULT_PROMPTS |}.

Definition system_prompt_key : string := "agent_worker:system_prompt".

(** The list [all_tools] of [create_agent] (lines 121 to 132); it does not
    depend on the arguments.  [suggest_choices] is the bound method of a
    new [ToolForSuggestingChoices]. *)
Definition all_tools : list FunctionTool :=
  [ FunctionTool_from_defaults suggest_choices (Some true);
    FunctionTool_from_defaults roll_a_dice None;
    FunctionTool_from_defaults roll_a_skill None ].

(** [PromptTemplate(text)]: the template object holds the text it was
    given; the constructor raises when the text does not parse. *)
Definition PromptTemplate (text : string) : M string :=
  match template_error text with
  | Some e => raise e
  | None => mret text
  end.

(** [create_agent(should_use_chainlit, max_action_steps=5)].  The call of
    [ReActAgent.from_tools] (lines 133 to 139) passes [tools], [verbose] and
    [memory]; the two comment lines inside it ("x2", "+1") stand where a
    [max_iterations] argument would be, and none is passed. *)
Definition create_agent (should_use_chainlit : bool) (max_action_steps : option Z)
  : M AgentRunner :=
  let max_action_steps := default 5%Z max_action_steps in
  manager ← create_callback_manager should_use_chainlit;
  modify (set_Settings_callback_manager manager);;
  shared_memory ← gets chat_memory;
  agent ← ReActAgent_from_tools all_tools true None shared_memory;
  MY_SYSTEM_PROMPT ← open_read "prompts/system_prompt.md";
  let my_system_prompt :=
    Str.replace "{allowance}" (Str.str_int max_action_steps) MY_SYSTEM_PROMPT in
  system_prompt ← PromptTemplate my_system_prompt;
  mret (update_prompts {[system_prompt_key := system_prompt]} agent).

(** ** The agent's chat operation *)

(** [memory.put(message)]: the message is appended under the buffer's key
    in the store the buffer points to. *)
Definition memory_put (m : ChatMemoryBuffer) (msg : ChatMessage) (w : World) : World :=
  let store := store_at w (memory_store m) in
  let messages := default [] (store !! chat_store_key m) in
  set_stores
    (<[memory_store m := <[chat_store_key m := messages ++ [msg]]> store]> (stores w)) w.

Record Turn := { outcome : PyExn + string; steps : list Step }.

Definition system_prompt_of (a : AgentRunner) : string :=
  default "" (prompts a !! system_prompt_key).

Definition find_tool (name : string) (ts : list FunctionTool) : option FunctionTool :=
  List.find (fun t => String.eqb (tool_name t) name) ts.

(** Modelled from the spec: the reasoning loop is the framework's and not
    part of [main.py].  The agent "iteratively decides whether to call a
    tool or produce a final answer, bounded by a maximum iteration count";
    a tool registered as return-direct makes the agent "stop iterating and
    surface this output verbatim"; a call the tool set cannot serve is
    "surfaced to the agent" as an observation.  [n] counts the iterations
    left. *)
Fixpoint react_loop (a : AgentRunner) (history : list ChatMessage) (input : string)
    (n : nat) (scratch : list Step) : Turn :=
  match n with
  | O => {| outcome := inl (Exception "ValueError" "Reached max iterations.");
            steps := scratch |}
  | S n' =>
      match llm (system_prompt_of a) history input scratch with
      | FinalAnswer text => {| outcome := inr text; steps := scratch |}
      | CallTool name args =>
          match find_tool name (tools a) with
          | None =>
              react_loop a history input n'
                (scratch ++ [{| step_tool := name; step_args := args;
                                observation := "Error: No such tool named `" +:+ name +:+ "`." |}])
          | Some t =>
              let output := call_tool (fn t) args in
              let scratch' :=
                scratch ++ [{| step_tool := name; step_args := args;
                               observation := output |}] in
              if return_direct t
              then {| outcome := inr output; steps := scratch' |}
              else react_loop a history input n' scratch'
          end
      end
  end.

(** Modelled from the spec: [agent.achat(message)] and [agent.chat(message)]
    are the framework's.  "Each chat call appends the user turn to memory,
    triggers the externally-owned reasoning loop [...] and appends the
    response turn"; a turn that fails is "abandoned before being
    recorded". *)
Definition achat (a : AgentRunner) (message : string) : M string :=
  fun w =>
    let history := memory_get_all (memory a) w in
    match outcome (react_loop a history message (max_iterations a) []) with
    | inl e => (inl e, w)
    | inr response =>
        (inr response,
         memory_put (memory a) {| role := ASSISTANT; content := response |}
           (memory_put (memory a) {| role := USER; content := message |} w))
    end.

(** ** The web handlers *)

(** [@cl.on_chat_start]: [cl.user_session.set("agent", create_agent(...))]
    for the session [sid] the event belongs to. *)
Definition factory (sid : nat) : M unit :=
  agent ← create_agent true None;
  modify (fun w => set_user_session (<[sid := agent]> (user_session w)) w).

(** [@cl.on_chat_end]. *)
Definition cleanup : M unit :=
  logger_warning "Interrupted. Persisting chat storage.";;
  store ← gets chat_store;
  persist store "chat_store.json".

(** [@cl.on_message]: [cl.user_session.get("agent")] is [None] for a
    session without an agent, and calling [achat] on it raises. *)
Definition main (sid : nat) (message_content : string) : M unit :=
  slot ← gets (fun w => user_session w !! sid);
  match slot with
  | None =>
      raise (Exception "AttributeError" "'NoneType' object has no attribute 'achat'")
  | Some agent =>
      response ← achat agent message_content;
      modify (fun w => set_sent (sent w ++ [(sid, response)]) w)
  end.

Inductive Event :=
| on_chat_start (sid : nat)
| on_message (sid : nat) (text : string)
| on_chat_end (sid : nat).

Definition handle (ev : Event) : M unit :=
  match ev with
  | on_chat_start sid => factory sid
  | on_message sid text => main sid text
  | on_chat_end _ => cleanup
  end.

(** The web front-end runs one handler at a time to completion or to an
    exception, and keeps serving after a handler raised. *)
Definition step (w : World) (ev : Event) : World := snd (handle ev w).

Definition run (evs : list Event) (w : World) : World := foldl step w evs.

(** ** The terminal entry point (lines 193 to 200) *)

Definition repl_and_flush (agent : AgentRunner) : M unit :=
  try_except (chat_repl agent) is_KeyboardInterrupt
    (fun _ =>
       logger_warning "Interrupted. Persisting chat storage.";;
       store ← gets chat_store;
       persist store "chat_store.json").

Definition terminal_main : M unit :=
  agent ← create_agent false None;
  repl_and_flush agent.

End Program.

(** ** Instances for the examples *)

Inductive Key := Line (text : string) | CtrlC.

Definition demo_store : SimpleChatStore :=
  {[ "user1" := [ {| role := USER; content := "hello" |};
                  {| role := ASSISTANT; content := "hi" |} ] ]}.

(** A loader that knows two files: the empty store and [demo_store].  As
    the library's loader does, it returns an empty store for a path that
    does not exist. *)
Definition demo_from_persist_path (fs : gmap string string) (path : string)
  : PyExn + SimpleChatStore :=
  match fs !! path with
  | None => inr ∅
  | Some text =>
      if String.eqb text "{}" then inr ∅
      else if String.eqb text "{demo}" then inr demo_store
      else inl (Exception "JSONDecodeError" "Expecting value")
  end.

Definition demo_to_json (s : SimpleChatStore) : string :=
  if decide (s = ∅) then "{}"
  else if decide (s = demo_store) then "{demo}" else "{other}".

(** The states of the scan of a format string: literal text, after a
    brace that may be doubled, inside a field name, inside an index of it,
    at and after a conversion, inside a format specification at a depth of
    braces. *)
Inductive ScanState :=
| Literal | AfterOpen | AfterClose | FieldName | FieldIndex
| Conversion | AfterConversion | FormatSpec (depth : nat).

Definition value_error (msg : string) : PyExn := Exception "ValueError" msg.

Definition field_char (c : ascii) : PyExn + ScanState :=
  if Ascii.eqb c "{" then inl (value_error "unexpected '{' in field name")
  else if Ascii.eqb c "[" then inr FieldIndex
  else if Ascii.eqb c "}" then inr Literal
  else if Ascii.eqb c ":" then inr (FormatSpec 1)
  else if Ascii.eqb c "!" then inr Conversion
  else inr FieldName.

Definition scan_char (st : ScanState) (c : ascii) : PyExn + ScanState :=
  match st with
  | Literal =>
      if Ascii.eqb c "{" then inr AfterOpen
      else if Ascii.eqb c "}" then inr AfterClose else inr Literal
  | AfterOpen => if Ascii.eqb c "{" then inr Literal else field_char c
  | AfterClose =>
      if Ascii.eqb c "}" then inr Literal
      else inl (value_error "Single '}' encountered in format string")
  | FieldName => field_char c
  | FieldIndex => if Ascii.eqb c "]" then inr FieldName else inr FieldIndex
  | Conversion => inr AfterConversion
  | AfterConversion =>
      if Ascii.eqb c "}" then inr Literal
      else if Ascii.eqb c ":" then inr (FormatSpec 1)
      else inl (value_error "expected ':' after conversion specifier")
  | FormatSpec depth =>
      if Ascii.eqb c "{" then inr (FormatSpec (S depth))
      else if Ascii.eqb c "}" then
        match depth with
        | 0 | 1 => inr Literal
        | S d => inr (FormatSpec d)
        end
      else inr (FormatSpec depth)
  end.

Definition scan_end (st : ScanState) : option PyExn :=
  match st with
  | Literal => None
  | AfterOpen => Some (value_error "Single '{' encountered in format string")
  | AfterClose => Some (value_error "Single '}' encountered in format string")
  | FieldName | FieldIndex => Some (value_error "expected '}' before end of string")
  | Conversion =>
      Some (value_error "end of string while looking for conversion specifier")
  | AfterConversion | FormatSpec _ => Some (value_error "unmatched '{' in format spec")
  end.

Fixpoint scan (st : ScanState) (text : string) : option PyExn :=
  match text with
  | EmptyString => scan_end st
  | String c rest =>
      match scan_char st c with
      | inl e => Some e
      | inr st' => scan st' rest
      end
  end.

(** The check of the examples: the scan of the text as a format string,
    which fails on a brace that is neither doubled nor part of a field. *)
Definition demo_template_error (text : string) : option PyExn := scan Literal text.

(** A scripted model: it rolls once for "roll a d6", asks for choices on
    "what now?", never stops rolling on "loop", and answers "ok" otherwise. *)
Definition demo_llm (system_prompt : string) (history : list ChatMessage)
    (input : string) (scratch : list Step) : Action :=
  if String.eqb input "loop" then CallTool "roll_a_dice" "6"
  else if String.eqb input "what now?" then CallTool "suggest_choices" "fight or flee"
  else if String.eqb input "roll a d6" then
    match scratch with
    | [] => CallTool "roll_a_dice" "6"
    | s :: _ => FinalAnswer ("You rolled " +:+ observation s)
    end
  else FinalAnswer "ok".

Definition demo_call_tool (f : ToolFn) (args : string) : string :=
  match f with
  | suggest_choices => "1. Fight  2. Flee"
  | roll_a_dice => "4"
  | roll_a_skill => "success"
  end.

Definition demo_base : External :=
  {| from_persist_path := demo_from_persist_path;
     to_json := demo_to_json;
     template_error := demo_template_error;
     DEFAULT_MAX_ITERATIONS := 10;
     DEFAULT_PROMPTS := {[ "agent_worker:system_prompt" := "You are designed to help." ]};
     llm := demo_llm;
     call_tool := demo_call_tool;
     chat_repl := fun _ => mret tt |}.

(** A terminal whose user types the given keys: ["exit"] leaves the loop,
    Ctrl-C raises [KeyboardInterrupt], the end of input raises [EOFError]. *)
Fixpoint scripted_repl (stdin : list Key) (agent : AgentRunner) : M unit :=
  match stdin with
  | [] => raise (Exception "EOFError" "EOF when reading a line")
  | CtrlC :: _ => raise KeyboardInterrupt
  | Line text :: rest =>
      if String.eqb text "exit" then mret tt
      else @achat demo_base agent text;; scripted_repl rest agent
  end.

Definition demo (stdin : list Key) : External :=
  {| from_persist_path := demo_from_persist_path;
     to_json := demo_to_json;
     template_error := demo_template_error;
     DEFAULT_MAX_ITERATIONS := 10;
     DEFAULT_PROMPTS := {[ "agent_worker:system_prompt" := "You are designed to help." ]};
     llm := demo_llm;
     call_tool := demo_call_tool;
     chat_repl := scripted_repl stdin |}.

Definition demo_prompt : string :=
  "You are the keeper. You may take at most {allowance} actions per turn.".

Definition demo_files : gmap string string :=
  {[ "prompts/system_prompt.md" := demo_prompt ]}.

(** The agent [create_agent] builds in the examples: the object identity
    and the allowance in its prompt vary. *)
Definition demo_agent (id : nat) (allowance : string) : AgentRunner :=
  {| agent_id := id; tools := all_tools; verbose := true;
     max_iterations := 10;
     memory := {| memory_store := 0; chat_store_key := "user1" |};
     prompts :=
       {[ system_prompt_key :=
            "You are the keeper. You may take at most " +:+ allowance
              +:+ " actions per turn." ]}
       ∪ @DEFAULT_PROMPTS demo_base |}.

(** The world of a process started on [fs], or an untouched empty world
    when the start-up raised. *)
Definition started `{External} (fs : gmap string string) : World :=
  match module_init fs with
  | inr w => w
  | inl _ =>
      {| files := fs; io := []; log := []; sent := []; logger_levels := ∅;
         stores := ∅; next_id := 0; chat_store := 0;
         chat_memory := {| memory_store := 0; chat_store_key := "" |};
         Settings_callback_manager := {| manager_id := 0; handlers := [] |};
         user_session := ∅ |}
  end.

(** ** Statements about worlds *)

(** What holds of every world the web front-end can reach: the one memory
    buffer is a view on the one chat store under the key "user1"; every
    agent bound to a session was built over that buffer with the fixed tool
    list and the default iteration limit; agents of different sessions are
    different objects; the persisted store was loaded from
    "chat_store.json" and is written nowhere else. *)
Record Inv `{External} (w : World) : Prop := {
  inv_memory :
    chat_memory w = {| memory_store := chat_store w; chat_store_key := "user1" |};
  inv_agents : forall sid a, user_session w !! sid = Some a ->
    tools a = all_tools /\ memory a = chat_memory w /\
    max_iterations a = DEFAULT_MAX_ITERATIONS /\ agent_id a < next_id w;
  inv_distinct : forall s1 s2 a1 a2, s1 <> s2 ->
    user_session w !! s1 = Some a1 -> user_session w !! s2 = Some a2 ->
    agent_id a1 <> agent_id a2;
  inv_manager : manager_id (Settings_callback_manager w) < next_id w;
  inv_io : exists rest,
    io w = Loaded "chat_store.json" :: rest /\
    Forall (fun e => exists text, e = Persisted "chat_store.json" text) rest }.

(** Start-up on [fs] handles a failed load: when "chat_store.json" is
    missing, or the loader raises, the module body returns with an empty
    store and one warning logged. *)
Definition load_failure_handled `{External} (fs : gmap string string) : Prop :=
  fs !! "chat_store.json" = None \/
  (exists e, from_persist_path fs "chat_store.json" = inl e) ->
  exists w text,
    module_init fs = inr w /\
    store_at w (chat_store w) = ∅ /\
    log w = [{| levelname := WARNING; message := text |}].

(** Isolation of session [s2] from a message of session [s1]: the history
    the agent of [s2] reads is the same before and after the message. *)
Definition memory_isolated `{External} (w : World) (s1 s2 : nat) (text : string) : Prop :=
  forall a2, user_session w !! s2 = Some a2 ->
    memory_get_all (memory a2) (step w (on_message s1 text))
    = memory_get_all (memory a2) w.


(** A store file of one line per message of the key "user1": the letter U
    or A for the role, then the content. *)
Definition newline : ascii := ascii_of_nat 10.

Definition encode_message (m : ChatMessage) : string :=
  String (match role m with USER => "U" | ASSISTANT => "A" end)%char
    (content m +:+ String newline EmptyString).

Definition lines_to_json (s : SimpleChatStore) : string :=
  foldr (fun m text => encode_message m +:+ text) EmptyString
    (default [] (s !! "user1")).

(** [line] is the message being read, if a line has been opened. *)
Fixpoint decode_lines (text : string) (line : option (Role * string))
  : option (list ChatMessage) :=
  match text with
  | EmptyString =>
      match line with None => Some [] | Some _ => None end
  | String c rest =>
      match line with
      | None =>
          if Ascii.eqb c "U" then decode_lines rest (Some (USER, EmptyString))
          else if Ascii.eqb c "A" then decode_lines rest (Some (ASSISTANT, EmptyString))
          else None
      | Some (r, acc) =>
          if Ascii.eqb c newline
          then cons {| role := r; content := acc |} <$> decode_lines rest None
          else decode_lines rest (Some (r, acc +:+ String c EmptyString))
      end
  end.

Definition lines_from_persist_path (fs : gmap string string) (path : string)
  : PyExn + SimpleChatStore :=
  match fs !! path with
  | None => inr ∅
  | Some text =>
      match decode_lines text None with
      | Some [] => inr ∅
      | Some messages => inr {[ "user1" := messages ]}
      | None => inl (Exception "JSONDecodeError" "Expecting value")
      end
  end.

Definition demo_lines : External :=
  {| from_persist_path := lines_from_persist_path;
     to_json := lines_to_json;
     template_error := demo_template_error;
     DEFAULT_MAX_ITERATIONS := 10;
     DEFAULT_PROMPTS := {[ "agent_worker:system_prompt" := "You are designed to help." ]};
     llm := demo_llm;
     call_tool := demo_call_tool;
     chat_repl := fun _ => mret tt |}.

(** Counting the events of a run by kind. *)
Definition is_end (ev : Event) : bool :=
  match ev with on_chat_end _ => true | _ => false end.

Definition is_message (ev : Event) : bool :=
  match ev with on_message _ _ => true | _ => false end.

Definition count_ends (evs : list Event) : nat := length (List.filter is_end evs).

Definition count_messages (evs : list Event) : nat :=
  length (List.filter is_message evs).

(** The logging set-up of lines 28 to 38 as the handlers find it: the root
    logger at [INFO], the module's [logger] without a level of its own. *)
Definition logging_configured (w : World) : Prop :=
  logger_levels w !! root_logger = Some INFO /\
  logger_levels w !! module_name = None.

(** The record [cleanup] logs. *)
Definition interrupted_record : LogRecord :=
  {| levelname := WARNING; message := "Interrupted. Persisting chat storage." |}.

(** A process whose start-up is interrupted from the keyboard while the
    store is being loaded. *)
Definition demo_interrupted : External :=
  {| from_persist_path := fun _ _ => inl KeyboardInterrupt;
     to_json := demo_to_json;
     template_error := demo_template_error;
     DEFAULT_MAX_ITERATIONS := 10;
     DEFAULT_PROMPTS := {[ "agent_worker:system_prompt" := "You are designed to help." ]};
     llm := demo_llm;
     call_tool := demo_call_tool;
     chat_repl := fun _ => mret tt |}.

(** * Properties *)

(** ** Facts about [str.replace] *)

Module StrFacts.
Import Str.

Example replace_all_occurrences :
  replace "{allowance}" "5" "at most {allowance} steps, {allowance}!"
  = "at most 5 steps, 5!".
Proof. vm_compute. reflexivity. Qed.

Example replace_empty_old : replace "" "-" "abc" = "-a-b-c-".
Proof. vm_compute. reflexivity. Qed.

Example replace_not_overlapping : replace "aa" "b" "aaa" = "ba".
Proof. vm_compute. reflexivity. Qed.

Example str_int_examples :
  str_int 5 = "5" /\ str_int (-12) = "-12" /\ str_int 0 = "0".
Proof. vm_compute. auto. Qed.

(** *** Unfolding [replace_nonempty] *)

Lemma replace_nonempty_match o old' new s t :
  strip_prefix (String o old') s = Some t ->
  replace_nonempty o old' new s = new +:+ replace_nonempty o old' new t.
Proof.
  destruct s as [|c s']; [discriminate|].
  intros H. simp replace_nonempty.
  destruct (Equations.Prop.Logic.inspect _) as [[t'|] e];
    simp replace_nonempty; congruence.
Qed.

Lemma replace_nonempty_copy o old' new c s' :
  strip_prefix (String o old') (String c s') = None ->
  replace_nonempty o old' new (String c s')
  = String c (replace_nonempty o old' new s').
Proof.
  intros H. simp replace_nonempty.
  destruct (Equations.Prop.Logic.inspect _) as [[t'|] e];
    simp replace_nonempty; congruence.
Qed.

(** The induction that follows the scan: the empty text, a match at the
    head, a copied character. *)
Lemma replace_nonempty_ind o old' new (P : string -> string -> Prop) :
  P EmptyString EmptyString ->
  (forall s t, strip_prefix (String o old') s = Some t ->
     P t (replace_nonempty o old' new t) ->
     P s (new +:+ replace_nonempty o old' new t)) ->
  (forall c s', strip_prefix (String o old') (String c s') = None ->
     P s' (replace_nonempty o old' new s') ->
     P (String c s') (String c (replace_nonempty o old' new s'))) ->
  forall s, P s (replace_nonempty o old' new s).
Proof.
  intros Hnil Hmatch Hcopy s.
  remember (String.length s) as n eqn:Hn.
  revert s Hn; induction (lt_wf n) as [n _ IH]; intros s ->.
  destruct s as [|c s']; [simp replace_nonempty; exact Hnil|].
  destruct (strip_prefix (String o old') (String c s')) as [t|] eqn:E.
  - rewrite (replace_nonempty_match _ _ _ _ _ E).
    apply Hmatch; [exact E|].
    eapply IH; [|reflexivity].
    apply strip_prefix_length in E. simpl in *. lia.
  - rewrite (replace_nonempty_copy _ _ _ _ _ E).
    apply Hcopy; [exact E|].
    eapply IH; [|reflexivity]. simpl; lia.
Qed.

Lemma strip_prefix_app p t : strip_prefix p (p +:+ t) = Some t.
Proof.
  induction p as [|a p IH]; simpl; [reflexivity|].
  rewrite Ascii.eqb_refl. exact IH.
Qed.

Lemma contains_cons sub c s :
  contains sub s = true -> contains sub (String c s) = true.
Proof.
  intros Hs. simpl. destruct (strip_prefix sub (String c s)); [reflexivity|exact Hs].
Qed.

Lemma contains_app_l sub p s :
  contains sub s = true -> contains sub (p +:+ s) = true.
Proof.
  intros Hs. induction p as [|c p IH]; [exact Hs|].
  simpl String.append. apply contains_cons, IH.
Qed.

Lemma contains_prefix sub t : contains sub (sub +:+ t) = true.
Proof.
  destruct (sub +:+ t) eqn:E; simpl; rewrite <- E, strip_prefix_app; reflexivity.
Qed.

Lemma mem_cons_false c a s :
  mem c (String a s) = false -> Ascii.eqb c a = false /\ mem c s = false.
Proof. simpl. apply orb_false_elim. Qed.

Lemma all_outside_tail s a t :
  all_outside s (String a t) = true -> all_outside s t = true.
Proof.
  induction s as [|c s IH]; simpl; [reflexivity|].
  intros [Hc Hs]%andb_prop. rewrite (IH Hs), andb_true_r.
  apply negb_true_iff in Hc. apply orb_false_elim in Hc as [_ ->]. reflexivity.
Qed.

(** A text that starts with a character of [new] does not start with a
    pattern [new] shares no character with. *)
Lemma strip_prefix_outside a p n new' r :
  all_outside (String n new') (String a p) = true ->
  strip_prefix (String a p) (String n new' +:+ r) = None.
Proof.
  simpl. intros [Hn _]%andb_prop.
  apply negb_true_iff, orb_false_elim in Hn as [Hn _].
  rewrite Ascii.eqb_sym, Hn. reflexivity.
Qed.

Section Replace.
Variables (o : ascii) (old' new : string).
Hypothesis first_once : mem o old' = false.
Hypothesis new_outside : all_outside new (String o old') = true.
Hypothesis new_nonempty : new <> EmptyString.

(** A piece of [old] after its first character that opens the result opened
    the text already: the scan copied it. *)
Lemma strip_prefix_replace p :
  mem o p = false -> all_outside new p = true ->
  forall s r, strip_prefix p (replace_nonempty o old' new s) = Some r ->
              exists t, strip_prefix p s = Some t.
Proof.
  induction p as [|a p IH]; intros Ho Hnew s r; [simpl; eauto|].
  apply mem_cons_false in Ho as [Hoa Hop].
  destruct s as [|c s'].
  { simp replace_nonempty. discriminate. }
  destruct (strip_prefix (String o old') (String c s')) as [t|] eqn:E.
  - rewrite (replace_nonempty_match _ _ _ _ _ E).
    destruct new as [|n new'] eqn:En; [congruence|].
    rewrite strip_prefix_outside by exact Hnew. discriminate.
  - rewrite (replace_nonempty_copy _ _ _ _ _ E). simpl.
    destruct (Ascii.eqb a c); [|discriminate].
    intros Hr. eapply IH; eauto using all_outside_tail.
Qed.

Lemma contains_outside_app r :
  contains (String o old') r = false ->
  contains (String o old') (new +:+ r) = false.
Proof.
  intros Hr. clear new_nonempty. revert new_outside.
  induction new as [|n new' IH]; intros Hout; [exact Hr|].
  change (String n new' +:+ r) with (String n (new' +:+ r)).
  cbn [contains].
  change (String n (new' +:+ r)) with (String n new' +:+ r).
  rewrite strip_prefix_outside by exact Hout.
  apply IH. simpl in Hout. apply andb_prop in Hout as [_ Hout]. exact Hout.
Qed.

(** No occurrence of [old] is left, and none is formed by the pieces the
    replacement brings together. *)
Lemma replace_nonempty_no_occurrence s :
  contains (String o old') (replace_nonempty o old' new s) = false.
Proof.
  apply (replace_nonempty_ind o old' new
           (fun _ r => contains (String o old') r = false)).
  - reflexivity.
  - intros _ t _ IH. apply contains_outside_app, IH.
  - intros c s' E IH. cbn [contains]. rewrite IH.
    destruct (strip_prefix (String o old')
                (String c (replace_nonempty o old' new s'))) as [r|] eqn:Er;
      [|destruct (replace_nonempty o old' new s'); reflexivity].
    exfalso. simpl in Er, E.
    destruct (Ascii.eqb o c); [|discriminate].
    apply strip_prefix_replace in Er as [t Ht];
      [congruence|exact first_once|eapply all_outside_tail, new_outside].
Qed.

End Replace.

(** Where [old] occurs, [new] occurs in the result. *)
Lemma replace_nonempty_contains_new o old' new s :
  contains (String o old') s = true ->
  contains new (replace_nonempty o old' new s) = true.
Proof.
  apply (replace_nonempty_ind o old' new
           (fun s r => contains (String o old') s = true -> contains new r = true)).
  - discriminate.
  - intros _ t _ _ _. apply contains_prefix.
  - intros c s' E IH. cbn [contains]. rewrite E. intros Hs.
    apply contains_cons, IH, Hs.
Qed.


End StrFacts.

(** ** Facts about the program *)

Section Properties.
Context `{External}.

Ltac run_M :=
  unfold create_agent, create_callback_manager, ReActAgent_from_tools,
    PromptTemplate,
    factory, cleanup, main, terminal_main, repl_and_flush, persist,
    logger_warning, setLevel, open_read, try_except, raise, gets, modify,
    fresh, mbind, M_bind, mret, M_ret in *;
  cbn [fst snd files io log sent logger_levels stores next_id chat_store
       chat_memory Settings_callback_manager user_session
       set_files set_io set_log set_sent set_logger_levels set_stores
       set_next_id set_Settings_callback_manager set_user_session] in *.

(** *** What [create_agent] returns and what it leaves behind *)

Lemma create_agent_result b n w :
  fst (create_agent b n w) =
  match files w !! "prompts/system_prompt.md" with
  | Some template =>
      let my_system_prompt :=
        Str.replace "{allowance}" (Str.str_int (default 5%Z n)) template in
      match template_error my_system_prompt with
      | Some e => inl e
      | None =>
          inr {| agent_id := S (next_id w); tools := all_tools; verbose := true;
                 max_iterations := DEFAULT_MAX_ITERATIONS;
                 memory := chat_memory w;
                 prompts := {[ system_prompt_key := my_system_prompt ]}
                            ∪ DEFAULT_PROMPTS |}
      end
  | None =>
      inl (Exception "FileNotFoundError"
             "[Errno 2] No such file or directory: 'prompts/system_prompt.md'")
  end.
Proof.
  run_M. destruct (files w !! "prompts/system_prompt.md") as [template|];
    [|reflexivity].
  cbn zeta. unfold raise.
  destruct (template_error _); reflexivity.
Qed.

Lemma create_agent_world b n w :
  let w' := snd (create_agent b n w) in
  files w' = files w /\ io w' = io w /\ log w' = log w /\ sent w' = sent w /\
  stores w' = stores w /\ chat_store w' = chat_store w /\
  chat_memory w' = chat_memory w /\ user_session w' = user_session w /\
  next_id w' = S (S (next_id w)) /\
  logger_levels w' = <["debug" := DEBUG]> (logger_levels w) /\
  Settings_callback_manager w' =
    {| manager_id := next_id w;
       handlers := [LlamaDebugHandler "debug"; OpenInferenceTraceCallbackHandler]
                   ++ (if b then [LlamaIndexCallbackHandler] else []) |}.
Proof.
  run_M. destruct (files w !! "prompts/system_prompt.md") as [template|], b;
    cbn; try (unfold raise; destruct (template_error _));
    cbn; repeat split; reflexivity.
Qed.

(** An agent that was returned: the template was read and accepted. *)
Lemma create_agent_returned b n w agent :
  fst (create_agent b n w) = inr agent ->
  exists template,
    files w !! "prompts/system_prompt.md" = Some template /\
    template_error
      (Str.replace "{allowance}" (Str.str_int (default 5%Z n)) template) = None /\
    agent = {| agent_id := S (next_id w); tools := all_tools; verbose := true;
               max_iterations := DEFAULT_MAX_ITERATIONS;
               memory := chat_memory w;
               prompts :=
                 {[ system_prompt_key :=
                      Str.replace "{allowance}" (Str.str_int (default 5%Z n))
                        template ]}
                 ∪ DEFAULT_PROMPTS |}.
Proof.
  rewrite create_agent_result.
  destruct (files w !! "prompts/system_prompt.md") as [template|]; [|discriminate].
  cbn zeta. destruct (template_error _) eqn:E; [discriminate|].
  intros [= <-]. exists template. auto.
Qed.

(** A template that is read and accepted gives an agent. *)
Lemma create_agent_accepts b n w template :
  files w !! "prompts/system_prompt.md" = Some template ->
  template_error
    (Str.replace "{allowance}" (Str.str_int (default 5%Z n)) template) = None ->
  exists agent, fst (create_agent b n w) = inr agent.
Proof.
  intros Hfile Hok. rewrite create_agent_result, Hfile. cbn zeta. rewrite Hok.
  eexists; reflexivity.
Qed.

Lemma system_prompt_of_override text defaults a :
  prompts a = {[ system_prompt_key := text ]} ∪ defaults ->
  system_prompt_of a = text.
Proof.
  unfold system_prompt_of. intros ->.
  erewrite lookup_union_Some_l; [reflexivity|]. apply lookup_singleton_eq.
Qed.

(** *** The allowance in the system prompt *)

Lemma string_of_uint_outside d :
  Str.all_outside (NilEmpty.string_of_uint d) "{allowance}" = true.
Proof. induction d; cbn [NilEmpty.string_of_uint Str.all_outside]; auto. Qed.

Lemma str_int_outside n : Str.all_outside (Str.str_int n) "{allowance}" = true.
Proof.
  unfold Str.str_int, NilZero.string_of_int, NilZero.string_of_uint.
  destruct (Z.to_int n) as [d|d]; destruct d; try reflexivity;
    cbn [Str.all_outside]; rewrite ?andb_true_iff; repeat split;
    try reflexivity; apply (string_of_uint_outside (_ _)).
Qed.

Lemma str_int_nonempty n : Str.str_int n <> EmptyString.
Proof.
  unfold Str.str_int, NilZero.string_of_int, NilZero.string_of_uint.
  destruct (Z.to_int n) as [d|d]; destruct d; discriminate.
Qed.

(** Whatever allowance is substituted, no placeholder is left. *)
Lemma allowance_replaced n template :
  Str.contains "{allowance}"
    (Str.replace "{allowance}" (Str.str_int n) template) = false.
Proof.
  apply (StrFacts.replace_nonempty_no_occurrence "{" "allowance}");
    [reflexivity|apply str_int_outside|apply str_int_nonempty].
Qed.

Lemma allowance_present n template :
  Str.contains "{allowance}" template = true ->
  Str.contains (Str.str_int n)
    (Str.replace "{allowance}" (Str.str_int n) template) = true.
Proof. apply (StrFacts.replace_nonempty_contains_new "{" "allowance}"). Qed.

(** C2: with the template of "prompts/system_prompt.md", which holds the
    placeholder, the system prompt of the agent [create_agent] returns for
    the allowance 5 (left out or given) is the template with every
    "{allowance}" replaced by "5": it contains "5" and no "{allowance}". *)
Theorem system_prompt_allowance_5 (b : bool) (n : option Z) (w : World)
    (template : string) (agent : AgentRunner)
    (Hallowance : default 5%Z n = 5%Z)
    (Hfile : files w !! "prompts/system_prompt.md" = Some template)
    (Hplaceholder : Str.contains "{allowance}" template = true)
    (Hagent : fst (create_agent b n w) = inr agent) :
  system_prompt_of agent = Str.replace "{allowance}" "5" template /\
  Str.contains "5" (system_prompt_of agent) = true /\
  Str.contains "{allowance}" (system_prompt_of agent) = false.
Proof.
  apply create_agent_returned in Hagent as (template' & Hfile' & _ & ->).
  rewrite Hfile in Hfile'. injection Hfile' as <-. rewrite Hallowance.
  erewrite system_prompt_of_override by reflexivity.
  split; [reflexivity|]. split.
  - apply (allowance_present 5), Hplaceholder.
  - apply (allowance_replaced 5).
Qed.

(** C9: [factory] and the terminal entry point both call [create_agent]
    without [max_action_steps].  When the session-start handler returns, the
    session is bound to an agent whose system prompt is the template with
    "5" in the place of the placeholder; when [create_agent] returns in the
    terminal, the loop is run on an agent with that same prompt. *)
Theorem front_ends_substitute_5 (sid : nat) (w : World) (template : string)
    (Hfile : files w !! "prompts/system_prompt.md" = Some template) :
  (fst (factory sid w) = inr tt ->
   exists agent,
     user_session (snd (factory sid w)) !! sid = Some agent /\
     system_prompt_of agent = Str.replace "{allowance}" "5" template) /\
  (forall agent,
     fst (create_agent false None w) = inr agent ->
     terminal_main w = repl_and_flush agent (snd (create_agent false None w)) /\
     system_prompt_of agent = Str.replace "{allowance}" "5" template).
Proof.
  split.
  - unfold factory, mbind, M_bind, modify.
    destruct (create_agent true None w) as [[e|agent] w1] eqn:E;
      cbn [fst snd]; [discriminate|]. intros _.
    assert (Hagent : fst (create_agent true None w) = inr agent)
      by (rewrite E; reflexivity).
    apply create_agent_returned in Hagent as (template' & Hfile' & _ & ->).
    rewrite Hfile in Hfile'. injection Hfile' as <-.
    eexists. cbn [user_session set_user_session].
    split; [apply lookup_insert_eq|].
    erewrite system_prompt_of_override by reflexivity. reflexivity.
  - intros agent Hagent. split.
    + unfold terminal_main, mbind, M_bind.
      destruct (create_agent false None w) as [r w1]. cbn [fst snd] in *.
      subst r. reflexivity.
    + apply create_agent_returned in Hagent as (template' & Hfile' & _ & ->).
      rewrite Hfile in Hfile'. injection Hfile' as <-.
      erewrite system_prompt_of_override by reflexivity. reflexivity.
Qed.

(** *** The tool set and the reasoning loop *)

Lemma create_agent_tools b n w agent :
  fst (create_agent b n w) = inr agent -> tools agent = all_tools.
Proof.
  intros (template & _ & _ & ->)%create_agent_returned. reflexivity.
Qed.

(** C3: in the tool list of every agent [create_agent] builds, the
    choice-suggestion tool carries [return_direct = True] and the dice and
    skill tools carry [False]; when the agent calls the choice-suggestion
    tool, the turn ends there and its response is the tool's output as it
    is. *)
Theorem choice_tool_returns_direct (b : bool) (n : option Z) (w : World)
    (agent : AgentRunner) (history : list ChatMessage) (input args : string)
    (scratch : list Step) (k : nat)
    (Hagent : fst (create_agent b n w) = inr agent)
    (Hcall : llm (system_prompt_of agent) history input scratch
             = CallTool "suggest_choices" args) :
  map (fun t => (fn t, return_direct t)) (tools agent)
  = [(suggest_choices, true); (roll_a_dice, false); (roll_a_skill, false)] /\
  react_loop agent history input (S k) scratch
  = {| outcome := inr (call_tool suggest_choices args);
       steps := scratch ++ [{| step_tool := "suggest_choices"; step_args := args;
                               observation := call_tool suggest_choices args |}] |}.
Proof.
  apply create_agent_tools in Hagent.
  split; [rewrite Hagent; reflexivity|].
  cbn [react_loop]. rewrite Hcall, Hagent. reflexivity.
Qed.

(** In a web session whose agent opens the turn with the choice-suggestion
    tool, the message sent back is the tool's output. *)
Lemma choice_output_sent sid agent text args w :
  user_session w !! sid = Some agent ->
  tools agent = all_tools ->
  max_iterations agent <> 0 ->
  llm (system_prompt_of agent) (memory_get_all (memory agent) w) text []
  = CallTool "suggest_choices" args ->
  fst (main sid text w) = inr tt /\
  sent (snd (main sid text w)) = sent w ++ [(sid, call_tool suggest_choices args)].
Proof.
  intros Hs Htools Hmax Hcall.
  unfold main, mbind, M_bind, gets, modify, achat. rewrite Hs.
  destruct (max_iterations agent) as [|k]; [congruence|].
  cbn [react_loop]. rewrite Hcall, Htools. cbn. split; reflexivity.
Qed.

(** The dice and the skill tool hand their output back to the loop, which
    goes on with one iteration less. *)
Lemma other_tools_continue agent history input name args scratch k :
  tools agent = all_tools ->
  name = "roll_a_dice" \/ name = "roll_a_skill" ->
  llm (system_prompt_of agent) history input scratch = CallTool name args ->
  exists f,
    find_tool name (tools agent) = Some f /\ return_direct f = false /\
    react_loop agent history input (S k) scratch
    = react_loop agent history input k
        (scratch ++ [{| step_tool := name; step_args := args;
                        observation := call_tool (fn f) args |}]).
Proof.
  intros Htools Hname Hcall. cbn [react_loop]. rewrite Hcall, Htools.
  destruct Hname as [-> | ->]; eexists; (split; [reflexivity|]); split;
    reflexivity.
Qed.

(** A model that never stops rolling uses up the agent's iterations, all
    [n] of them. *)
Lemma react_loop_exhausts agent history input args :
  tools agent = all_tools ->
  (forall scratch, llm (system_prompt_of agent) history input scratch
                   = CallTool "roll_a_dice" args) ->
  forall k scratch,
    outcome (react_loop agent history input k scratch)
    = inl (Exception "ValueError" "Reached max iterations.") /\
    length (steps (react_loop agent history input k scratch))
    = (length scratch + k)%nat.
Proof.
  intros Htools Hllm k. induction k as [|k IH]; intros scratch.
  - cbn. split; [reflexivity|lia].
  - destruct (other_tools_continue agent history input "roll_a_dice" args
                scratch k Htools (or_introl eq_refl) (Hllm scratch))
      as (f & _ & _ & ->).
    destruct (IH (scratch ++ [{| step_tool := "roll_a_dice"; step_args := args;
                                 observation := call_tool (fn f) args |}]))
      as [-> ->].
    split; [reflexivity|]. rewrite length_app. cbn. lia.
Qed.

(** C5 (what the code does): the iteration limit of the agent is the
    library default whatever [max_action_steps] is; the "x2" and "+1" of
    the comment above [memory=chat_memory] have no counterpart in the
    call. *)
Theorem max_iterations_ignores_allowance (b : bool) (n : option Z) (w : World)
    (agent : AgentRunner)
    (Hagent : fst (create_agent b n w) = inr agent) :
  max_iterations agent = DEFAULT_MAX_ITERATIONS.
Proof.
  apply create_agent_returned in Hagent as (template & _ & _ & ->).
  reflexivity.
Qed.

(** *** What the handlers leave behind *)

Lemma factory_run sid w :
  factory sid w =
  match create_agent true None w with
  | (inl e, w1) => (inl e, w1)
  | (inr agent, w1) =>
      (inr tt, set_user_session (<[sid := agent]> (user_session w1)) w1)
  end.
Proof.
  unfold factory, mbind, M_bind, modify.
  destruct (create_agent true None w) as [[e|a] w1]; reflexivity.
Qed.

Lemma cleanup_run w :
  cleanup w =
  (inr tt,
   set_io (io w ++ [Persisted "chat_store.json" (to_json (store_at w (chat_store w)))])
     (set_files (<["chat_store.json" := to_json (store_at w (chat_store w))]> (files w))
        (set_log (emit (logger_levels w) module_name WARNING
                    "Interrupted. Persisting chat storage." (log w)) w))).
Proof. reflexivity. Qed.

Lemma main_run sid text w :
  main sid text w =
  match user_session w !! sid with
  | None =>
      (inl (Exception "AttributeError" "'NoneType' object has no attribute 'achat'"), w)
  | Some agent =>
      match achat agent text w with
      | (inl e, w1) => (inl e, w1)
      | (inr response, w1) => (inr tt, set_sent (sent w1 ++ [(sid, response)]) w1)
      end
  end.
Proof.
  unfold main, mbind, M_bind, gets, modify, raise.
  destruct (user_session w !! sid) as [a|]; [|reflexivity].
  destruct (achat a text w) as [[e|r] w1]; reflexivity.
Qed.

Lemma achat_run a text w :
  achat a text w =
  match outcome (react_loop a (memory_get_all (memory a) w) text (max_iterations a) []) with
  | inl e => (inl e, w)
  | inr response =>
      (inr response,
       memory_put (memory a) {| role := ASSISTANT; content := response |}
         (memory_put (memory a) {| role := USER; content := text |} w))
  end.
Proof. reflexivity. Qed.

(** Fields [main] does not write. *)
Lemma main_frame sid text w :
  let w' := snd (main sid text w) in
  files w' = files w /\ io w' = io w /\ log w' = log w /\
  logger_levels w' = logger_levels w /\ next_id w' = next_id w /\
  chat_store w' = chat_store w /\ chat_memory w' = chat_memory w /\
  Settings_callback_manager w' = Settings_callback_manager w /\
  user_session w' = user_session w.
Proof.
  rewrite main_run. destruct (user_session w !! sid) as [a|]; [|cbn; tauto].
  rewrite achat_run. destruct (outcome _); cbn; tauto.
Qed.

Lemma memory_get_all_put m msg w :
  memory_get_all m (memory_put m msg w) = memory_get_all m w ++ [msg].
Proof.
  unfold memory_get_all, memory_put, store_at; cbn [stores set_stores].
  rewrite lookup_insert_eq. simpl. rewrite lookup_insert_eq. reflexivity.
Qed.

(** *** The invariant *)

Lemma module_init_inv fs w : module_init fs = inr w -> Inv w.
Proof.
  unfold module_init. destruct (load_chat_store fs) as [e|[store records]];
    [discriminate|]. intros [= <-].
  split; cbn [chat_memory chat_store user_session next_id io
              Settings_callback_manager manager_id].
  - reflexivity.
  - intros sid a Hs. rewrite lookup_empty in Hs. discriminate.
  - intros s1 s2 a1 a2 _ Hs. rewrite lookup_empty in Hs. discriminate.
  - lia.
  - exists []. split; [reflexivity|constructor].
Qed.

Lemma factory_inv sid w : Inv w -> Inv (snd (factory sid w)).
Proof.
  intros [Hmem Hag Hdis Hman Hio].
  rewrite factory_run.
  pose proof (create_agent_returned true None w) as Hr.
  destruct (create_agent_world true None w)
    as (_ & Eio & _ & _ & _ & Ecs & Ecm & Eus & Eid & _ & Eman).
  destruct (create_agent true None w) as [[e|a] w1]; cbn [fst snd] in *.
  - split.
    + rewrite Ecs, Ecm. exact Hmem.
    + intros sid' a'. rewrite Eus, Ecm, Eid. intros Hs.
      destruct (Hag sid' a' Hs) as (? & ? & ? & ?). repeat split; auto; lia.
    + rewrite Eus. exact Hdis.
    + rewrite Eman, Eid. cbn. lia.
    + rewrite Eio. exact Hio.
  - destruct (Hr a eq_refl) as (template & _ & _ & ->). clear Hr.
    split; cbn [chat_memory chat_store user_session next_id io
                Settings_callback_manager set_user_session].
    + rewrite Ecs, Ecm. exact Hmem.
    + intros sid' a'. rewrite Eus, Ecm, Eid, lookup_insert. case_decide.
      * intros [= <-]. cbn. repeat split; auto; lia.
      * intros Hs. destruct (Hag sid' a' Hs) as (? & ? & ? & ?).
        repeat split; auto; lia.
    + intros s1 s2 a1 a2 Hne. rewrite Eus, !lookup_insert.
      repeat case_decide; try congruence.
      * intros [= <-] Hs. apply Hag in Hs as (_ & _ & _ & Hs). cbn. lia.
      * intros Hs [= <-]. apply Hag in Hs as (_ & _ & _ & Hs). cbn. lia.
      * apply Hdis, Hne.
    + rewrite Eman, Eid. cbn. lia.
    + rewrite Eio. exact Hio.
Qed.

Lemma main_inv sid text w : Inv w -> Inv (snd (main sid text w)).
Proof.
  intros [Hmem Hag Hdis Hman Hio].
  destruct (main_frame sid text w)
    as (_ & Eio & _ & _ & Eid & Ecs & Ecm & Eman & Eus).
  split; rewrite ?Ecs, ?Ecm, ?Eus, ?Eid, ?Eman, ?Eio; auto.
Qed.

Lemma cleanup_inv w : Inv w -> Inv (snd (cleanup w)).
Proof.
  intros [Hmem Hag Hdis Hman (rest & Eio & Hrest)].
  rewrite cleanup_run.
  split; cbn [snd chat_memory chat_store user_session next_id io
              Settings_callback_manager set_io set_files set_log]; auto.
  eexists. rewrite Eio. split; [reflexivity|].
  apply Forall_app; split; [exact Hrest|]. repeat constructor. eauto.
Qed.

Lemma step_inv ev w : Inv w -> Inv (step w ev).
Proof.
  destruct ev; unfold step, handle;
    [apply factory_inv|apply main_inv|apply cleanup_inv].
Qed.

Lemma run_inv evs w : Inv w -> Inv (run evs w).
Proof.
  revert w. induction evs as [|ev evs IH]; intros w Hw; [exact Hw|].
  apply IH, step_inv, Hw.
Qed.

Lemma reachable_inv fs w0 evs : module_init fs = inr w0 -> Inv (run evs w0).
Proof. intros Hinit. apply run_inv, (module_init_inv fs), Hinit. Qed.

Lemma run_app evs evs' w : run (evs ++ evs') w = run evs' (run evs w).
Proof. apply foldl_app. Qed.

(** *** Start-up *)

(** C1 (as amended): what the start-up does is decided by the loader's
    outcome alone.  When the loader returns a store, the module body goes on
    with that store and logs nothing; when it raises an exception of class
    [Exception], the module body does not raise: it logs one warning that
    carries the exception's text and goes on with an empty store; when it
    raises anything else, the exception ends the start-up. *)
Theorem chat_store_load_or_fallback (fs : gmap string string)
    (r : PyExn + SimpleChatStore)
    (Hload : from_persist_path fs "chat_store.json" = r) :
  match r with
  | inr loaded =>
      exists w,
        module_init fs = inr w /\ files w = fs /\
        store_at w (chat_store w) = loaded /\
        memory_store (chat_memory w) = chat_store w /\
        log w = []
  | inl e =>
      if is_Exception e
      then exists w,
             module_init fs = inr w /\ files w = fs /\
             store_at w (chat_store w) = ∅ /\
             memory_store (chat_memory w) = chat_store w /\
             log w = [{| levelname := WARNING;
                         message := "Failed to load chat store from file: "
                                      +:+ str_exn e +:+ ", using a new one." |}]
      else module_init fs = inl e
  end.
Proof.
  unfold module_init, load_chat_store. rewrite Hload.
  destruct r as [e|loaded].
  - destruct (is_Exception e); [|reflexivity].
    eexists. split; [reflexivity|]. repeat split; reflexivity.
  - eexists. split; [reflexivity|]. repeat split; reflexivity.
Qed.

(** X5: an exception outside [Exception] raised while the store is loaded
    (a [KeyboardInterrupt], a [SystemExit]) is not caught by the
    [except Exception] of the start-up and ends it. *)
Lemma module_init_not_caught fs e :
  from_persist_path fs "chat_store.json" = inl e -> is_Exception e = false ->
  module_init fs = inl e.
Proof.
  intros Hload He. unfold module_init, load_chat_store. rewrite Hload, He.
  reflexivity.
Qed.

(** *** Sessions and the one memory buffer *)

(** C4 (as amended): two web sessions have two agent objects, but both
    agents are built over the one module-level memory buffer; a turn that
    the agent of one session completes is appended to the history the agent
    of the other session reads. *)
Theorem sessions_share_one_memory (fs : gmap string string) (w0 : World)
    (evs : list Event) (s1 s2 : nat) (a1 a2 : AgentRunner)
    (text response : string)
    (Hinit : module_init fs = inr w0)
    (Hs1 : user_session (run evs w0) !! s1 = Some a1)
    (Hs2 : user_session (run evs w0) !! s2 = Some a2)
    (Hne : s1 <> s2)
    (Hturn : fst (achat a1 text (run evs w0)) = inr response) :
  agent_id a1 <> agent_id a2 /\
  memory a1 = memory a2 /\
  memory_get_all (memory a2) (step (run evs w0) (on_message s1 text))
  = memory_get_all (memory a2) (run evs w0)
    ++ [ {| role := USER; content := text |};
         {| role := ASSISTANT; content := response |} ].
Proof.
  destruct (reachable_inv fs w0 evs Hinit) as [_ Hag Hdis _ _].
  destruct (Hag s1 a1 Hs1) as (_ & Hm1 & _). destruct (Hag s2 a2 Hs2) as (_ & Hm2 & _).
  split; [exact (Hdis s1 s2 a1 a2 Hne Hs1 Hs2)|].
  split; [congruence|].
  unfold step, handle. rewrite main_run, Hs1.
  rewrite achat_run in Hturn |- *.
  destruct (outcome _) as [e|resp]; cbn [fst] in Hturn; [discriminate|].
  injection Hturn as ->. cbn [snd].
  replace (memory a2) with (memory a1) by congruence.
  unfold memory_get_all at 1. cbn [stores set_sent store_at].
  change (memory_get_all (memory a1)
            (memory_put (memory a1) {| role := ASSISTANT; content := response |}
               (memory_put (memory a1) {| role := USER; content := text |} (run evs w0)))
          = memory_get_all (memory a1) (run evs w0) ++
            [{| role := USER; content := text |};
             {| role := ASSISTANT; content := response |}]).
  rewrite !memory_get_all_put, <- app_assoc. reflexivity.
Qed.

(** *** The tool set *)

(** C7: every agent [create_agent] builds has the tool list of the three
    callables, choice suggestion, dice and skill, in this order; an agent
    bound to a web session keeps it: message and end events leave every
    bound agent as it is, and whatever agent the session is bound to later
    has the same list. *)
Theorem tool_set_fixed (fs : gmap string string) (w0 : World) (evs : list Event)
    (sid : nat) (agent : AgentRunner)
    (Hinit : module_init fs = inr w0)
    (Hbound : user_session (run evs w0) !! sid = Some agent) :
  map fn (tools agent) = [suggest_choices; roll_a_dice; roll_a_skill] /\
  (forall b n w a, fst (create_agent b n w) = inr a -> tools a = tools agent) /\
  (forall s text,
     user_session (step (run evs w0) (on_message s text)) = user_session (run evs w0)) /\
  (forall s,
     user_session (step (run evs w0) (on_chat_end s)) = user_session (run evs w0)) /\
  (forall evs' agent',
     user_session (run evs' (run evs w0)) !! sid = Some agent' ->
     tools agent' = tools agent).
Proof.
  destruct (reachable_inv fs w0 evs Hinit) as [_ Hag _ _ _].
  destruct (Hag sid agent Hbound) as (Htools & _).
  split; [rewrite Htools; reflexivity|].
  split; [intros b n w a Ha; rewrite Htools; eapply create_agent_tools, Ha|].
  split; [intros s text; apply main_frame|].
  split; [reflexivity|].
  intros evs' agent' Hb. rewrite <- run_app in Hb.
  destruct (reachable_inv fs w0 (evs ++ evs') Hinit) as [_ Hag' _ _ _].
  destruct (Hag' sid agent' Hb) as (-> & _). symmetry; exact Htools.
Qed.

(** *** Flushing the store *)

Lemma repl_and_flush_run agent w :
  repl_and_flush agent w =
  match chat_repl agent w with
  | (inl e, w1) => if is_KeyboardInterrupt e then cleanup w1 else (inl e, w1)
  | (inr tt, w1) => (inr tt, w1)
  end.
Proof.
  unfold repl_and_flush, try_except.
  destruct (chat_repl agent w) as [[e|[]] w1]; reflexivity.
Qed.

(** C6: in every world the web front-end reaches, the session-end handler
    writes the serialised chat store to "chat_store.json", whatever the
    file held, and returns; that store holds the memory buffer's messages
    under "user1"; "chat_store.json" is the path the store was loaded from
    and the only path ever persisted to.  In the terminal, a
    [KeyboardInterrupt] out of the loop does the same write. *)
Theorem store_flushed_on_termination (fs : gmap string string) (w0 : World)
    (evs : list Event) (sid : nat)
    (Hinit : module_init fs = inr w0) :
  let w := run evs w0 in
  let text := to_json (store_at w (chat_store w)) in
  (fst (handle (on_chat_end sid) w) = inr tt /\
   files (step w (on_chat_end sid)) = <["chat_store.json" := text]> (files w) /\
   files (step w (on_chat_end sid)) !! "chat_store.json" = Some text /\
   io (step w (on_chat_end sid)) = io w ++ [Persisted "chat_store.json" text]) /\
  default [] (store_at w (chat_store w) !! "user1")
  = memory_get_all (chat_memory w) w /\
  (exists rest,
     io w = Loaded "chat_store.json" :: rest /\
     Forall (fun e => exists t, e = Persisted "chat_store.json" t) rest) /\
  (forall agent wa wb,
     chat_repl agent wa = (inl KeyboardInterrupt, wb) ->
     let flushed := to_json (store_at wb (chat_store wb)) in
     fst (repl_and_flush agent wa) = inr tt /\
     files (snd (repl_and_flush agent wa))
     = <["chat_store.json" := flushed]> (files wb) /\
     io (snd (repl_and_flush agent wa))
     = io wb ++ [Persisted "chat_store.json" flushed]).
Proof.
  intros w text.
  destruct (reachable_inv fs w0 evs Hinit) as [Hmem _ _ _ Hio].
  split; [|split; [|split]].
  - unfold step, handle. rewrite cleanup_run. cbn.
    repeat split; try reflexivity. apply lookup_insert_eq.
  - fold w in Hmem. unfold memory_get_all. rewrite Hmem. reflexivity.
  - exact Hio.
  - intros agent wa wb Hrepl flushed.
    rewrite repl_and_flush_run, Hrepl. cbn [is_KeyboardInterrupt].
    rewrite cleanup_run. cbn. repeat split; reflexivity.
Qed.

(** C8: in the terminal entry point, once the agent is built, what follows
    the loop depends on how the loop ended.  On [KeyboardInterrupt] the
    store is persisted to "chat_store.json" and the program ends normally;
    on a normal return or any other exception nothing is done at all: the
    world is the one the loop left and the exception, if any, goes on.  So
    a persist call is made if and only if the loop raised
    [KeyboardInterrupt]. *)
Theorem terminal_persists_iff_interrupt (w : World) (agent : AgentRunner)
    (Hagent : fst (create_agent false None w) = inr agent) :
  let w1 := snd (create_agent false None w) in
  let r := fst (chat_repl agent w1) in
  let w2 := snd (chat_repl agent w1) in
  let final := snd (terminal_main w) in
  let flushed := to_json (store_at w2 (chat_store w2)) in
  (r = inl KeyboardInterrupt ->
     fst (terminal_main w) = inr tt /\
     io final = io w2 ++ [Persisted "chat_store.json" flushed] /\
     files final = <["chat_store.json" := flushed]> (files w2)) /\
  (r <> inl KeyboardInterrupt -> terminal_main w = (r, w2)) /\
  (io final <> io w2 <-> r = inl KeyboardInterrupt).
Proof.
  intros w1 r w2 final flushed.
  assert (Hrepl : chat_repl agent w1 = (r, w2)) by apply surjective_pairing.
  assert (Hmain : terminal_main w = repl_and_flush agent w1).
  { unfold terminal_main, mbind, M_bind. subst w1.
    destruct (create_agent false None w) as [ra wa]. cbn [fst snd] in *.
    subst ra. reflexivity. }
  clearbody r w2 w1.
  assert (Hint : r = inl KeyboardInterrupt ->
            terminal_main w = cleanup w2).
  { intros ->. rewrite Hmain, repl_and_flush_run, Hrepl. reflexivity. }
  assert (Hother : r <> inl KeyboardInterrupt -> terminal_main w = (r, w2)).
  { intros Hr. rewrite Hmain, repl_and_flush_run, Hrepl.
    destruct r as [[]|[]]; try reflexivity. congruence. }
  split; [|split; [exact Hother|split]].
  - intros Hr. subst final flushed. rewrite (Hint Hr), cleanup_run. cbn.
    repeat split; reflexivity.
  - intros Hio.
    destruct (decide (r = inl KeyboardInterrupt)) as [Hr|Hr]; [exact Hr|].
    exfalso. apply Hio. subst final. rewrite (Hother Hr). reflexivity.
  - intros Hr. subst final. rewrite (Hint Hr), cleanup_run. cbn.
    intros Heq. apply (f_equal length) in Heq. rewrite length_app in Heq.
    cbn in Heq. lia.
Qed.

(** X14: in the terminal, without the template there is no agent and no
    loop: the exception of [open] ends the program, outside the [try], and
    nothing is persisted. *)
Lemma terminal_main_without_template w :
  files w !! "prompts/system_prompt.md" = None ->
  (exists e, fst (terminal_main w) = inl e /\ is_Exception e = true) /\
  io (snd (terminal_main w)) = io w /\
  files (snd (terminal_main w)) = files w.
Proof.
  intros Hfile.
  pose proof (create_agent_result false None w) as Hr. rewrite Hfile in Hr.
  destruct (create_agent_world false None w) as (Ef & Eio & _).
  unfold terminal_main, mbind, M_bind.
  destruct (create_agent false None w) as [r w1]. cbn [fst snd] in *. subst r.
  cbn [fst snd]. split; [eexists; split; reflexivity|split; assumption].
Qed.

(** *** The callback manager *)

(** C10: every call of [create_agent], also one that then fails to read the
    template, puts a newly built manager in [Settings.callback_manager];
    the manager holds the debug and the trace handler, and the Chainlit
    handler exactly when [should_use_chainlit] is true.  The manager that
    was there is gone, while the agents bound to sessions earlier stay
    bound: they all see the one replaced setting. *)
Theorem create_agent_replaces_callback_manager (fs : gmap string string)
    (w0 : World) (evs : list Event) (b : bool) (n : option Z)
    (Hinit : module_init fs = inr w0) :
  let w := run evs w0 in
  let w' := snd (create_agent b n w) in
  let manager := Settings_callback_manager w' in
  handlers manager
  = [LlamaDebugHandler "debug"; OpenInferenceTraceCallbackHandler]
    ++ (if b then [LlamaIndexCallbackHandler] else []) /\
  (LlamaIndexCallbackHandler ∈ handlers manager <-> b = true) /\
  LlamaDebugHandler "debug" ∈ handlers manager /\
  OpenInferenceTraceCallbackHandler ∈ handlers manager /\
  manager_id manager = next_id w /\
  manager <> Settings_callback_manager w /\
  user_session w' = user_session w.
Proof.
  intros w w' manager.
  destruct (reachable_inv fs w0 evs Hinit) as [_ _ _ Hman _].
  destruct (create_agent_world b n w)
    as (_ & _ & _ & _ & _ & _ & _ & Eus & _ & _ & Eman).
  subst manager w'. rewrite Eman. cbn [handlers manager_id].
  split; [reflexivity|]. split; [|split; [|split; [|split; [|split]]]].
  - destruct b; cbn; rewrite !elem_of_cons, elem_of_nil.
    + split; [reflexivity|intros _; tauto].
    + split; [intros [Hx|[Hx|[]]]; discriminate|discriminate].
  - apply elem_of_cons; left; reflexivity.
  - apply elem_of_cons; right; apply elem_of_cons; left; reflexivity.
  - reflexivity.
  - intros Heq. fold w in Hman. rewrite <- Heq in Hman. cbn in Hman. lia.
  - exact Eus.
Qed.

End Properties.

(** * The properties on concrete runs *)

(** The claim read two ways, and start-ups that go against each: with
    the file missing the loader returns an empty store and no warning is
    logged; with the load interrupted from the keyboard the start-up
    raises. *)
Lemma load_failure_handled_counterexample :
  ~ @load_failure_handled (demo []) demo_files /\
  ~ @load_failure_handled demo_interrupted demo_files.
Proof.
  split; intros Hclaim.
  - destruct Hclaim as (w & text & Hinit & _ & Hlog);
      [left; vm_compute; reflexivity|].
    assert (Hw : w = @started (demo []) demo_files)
      by (unfold started; rewrite Hinit; reflexivity).
    subst w. vm_compute in Hlog. discriminate Hlog.
  - destruct Hclaim as (w & text & Hinit & _);
      [right; exists KeyboardInterrupt; reflexivity|].
    vm_compute in Hinit. discriminate Hinit.
Qed.

(** Start-up with a saved store, with a file that is not a store, with no
    file, and with the load interrupted. *)
Lemma chat_store_load_or_fallback_witness :
  (exists w, @module_init (demo []) (<["chat_store.json" := "{demo}"]> demo_files) = inr w /\
     store_at w (chat_store w) = demo_store /\ log w = []) /\
  (exists w, @module_init (demo []) (<["chat_store.json" := "not json"]> demo_files) = inr w /\
     store_at w (chat_store w) = ∅ /\
     log w = [{| levelname := WARNING;
                 message := "Failed to load chat store from file: Expecting value, using a new one." |}]) /\
  (exists w, @module_init (demo []) demo_files = inr w /\
     store_at w (chat_store w) = ∅ /\ log w = []) /\
  @module_init demo_interrupted demo_files = inl KeyboardInterrupt.
Proof.
  split; [|split; [|split]].
  - destruct (@chat_store_load_or_fallback (demo [])
                (<["chat_store.json" := "{demo}"]> demo_files) (inr demo_store))
      as (w & Hw & _ & Hs & _ & Hl); [vm_compute; reflexivity|].
    exists w. auto.
  - destruct (@chat_store_load_or_fallback (demo [])
                (<["chat_store.json" := "not json"]> demo_files)
                (inl (Exception "JSONDecodeError" "Expecting value")))
      as (w & Hw & _ & Hs & _ & Hl); [vm_compute; reflexivity|].
    exists w. auto.
  - destruct (@chat_store_load_or_fallback (demo []) demo_files (inr ∅))
      as (w & Hw & _ & Hs & _ & Hl); [vm_compute; reflexivity|].
    exists w. auto.
  - apply (@chat_store_load_or_fallback demo_interrupted demo_files
             (inl KeyboardInterrupt)). reflexivity.
Defined.

Lemma system_prompt_allowance_5_witness :
  fst (@create_agent (demo []) true None (@started (demo []) demo_files))
  = inr (demo_agent 3 "5") /\
  system_prompt_of (demo_agent 3 "5")
  = "You are the keeper. You may take at most 5 actions per turn." /\
  Str.contains "5" (system_prompt_of (demo_agent 3 "5")) = true /\
  Str.contains "{allowance}" (system_prompt_of (demo_agent 3 "5")) = false.
Proof.
  split; [vm_compute; reflexivity|].
  destruct (@system_prompt_allowance_5 (demo []) true None
              (@started (demo []) demo_files) demo_prompt (demo_agent 3 "5"))
    as (Hp & H5 & Hno);
    [reflexivity|vm_compute; reflexivity|vm_compute; reflexivity|
     vm_compute; reflexivity|].
  split; [|split; [exact H5|exact Hno]].
  etransitivity; [exact Hp|]. vm_compute. reflexivity.
Defined.

Lemma choice_tool_returns_direct_witness :
  fst (@create_agent (demo []) true None (@started (demo []) demo_files))
  = inr (demo_agent 3 "5") /\
  map (fun t => (fn t, return_direct t)) (tools (demo_agent 3 "5"))
  = [(suggest_choices, true); (roll_a_dice, false); (roll_a_skill, false)] /\
  @react_loop (demo []) (demo_agent 3 "5") [] "what now?" 10 []
  = {| outcome := inr "1. Fight  2. Flee";
       steps := [{| step_tool := "suggest_choices"; step_args := "fight or flee";
                    observation := "1. Fight  2. Flee" |}] |}.
Proof.
  split; [vm_compute; reflexivity|].
  apply (@choice_tool_returns_direct (demo []) true None
           (@started (demo []) demo_files) (demo_agent 3 "5") []
           "what now?" "fight or flee" [] 9);
    vm_compute; reflexivity.
Defined.

(** Two web sessions are open; a message of session 1 changes the history
    the agent of session 2 reads, from empty to the two turns. *)
Lemma sessions_isolated_counterexample :
  ~ @memory_isolated (demo [])
      (@run (demo []) [on_chat_start 1; on_chat_start 2] (@started (demo []) demo_files))
      1 2 "roll a d6".
Proof.
  intros Hiso.
  assert (Hs2 :
    user_session (@run (demo []) [on_chat_start 1; on_chat_start 2]
                    (@started (demo []) demo_files)) !! 2
    = Some (demo_agent 5 "5"))
    by (vm_compute; reflexivity).
  specialize (Hiso (demo_agent 5 "5") Hs2).
  assert (Hafter :
    memory_get_all (memory (demo_agent 5 "5"))
      (@step (demo [])
         (@run (demo []) [on_chat_start 1; on_chat_start 2]
            (@started (demo []) demo_files)) (on_message 1 "roll a d6"))
    = [ {| role := USER; content := "roll a d6" |};
        {| role := ASSISTANT; content := "You rolled 4" |} ])
    by (vm_compute; reflexivity).
  assert (Hbefore :
    memory_get_all (memory (demo_agent 5 "5"))
      (@run (demo []) [on_chat_start 1; on_chat_start 2]
         (@started (demo []) demo_files)) = [])
    by (vm_compute; reflexivity).
  rewrite Hafter, Hbefore in Hiso. discriminate Hiso.
Qed.

Lemma sessions_share_one_memory_witness :
  user_session (@run (demo []) [on_chat_start 1; on_chat_start 2]
                  (@started (demo []) demo_files)) !! 1 = Some (demo_agent 3 "5") /\
  user_session (@run (demo []) [on_chat_start 1; on_chat_start 2]
                  (@started (demo []) demo_files)) !! 2 = Some (demo_agent 5 "5") /\
  memory (demo_agent 3 "5") = memory (demo_agent 5 "5") /\
  memory_get_all (memory (demo_agent 5 "5"))
    (@step (demo [])
       (@run (demo []) [on_chat_start 1; on_chat_start 2]
          (@started (demo []) demo_files)) (on_message 1 "roll a d6"))
  = memory_get_all (memory (demo_agent 5 "5"))
      (@run (demo []) [on_chat_start 1; on_chat_start 2]
         (@started (demo []) demo_files))
    ++ [ {| role := USER; content := "roll a d6" |};
         {| role := ASSISTANT; content := "You rolled 4" |} ].
Proof.
  split; [vm_compute; reflexivity|].
  split; [vm_compute; reflexivity|].
  apply (@sessions_share_one_memory (demo []) demo_files
           (@started (demo []) demo_files) [on_chat_start 1; on_chat_start 2]
           1 2 (demo_agent 3 "5") (demo_agent 5 "5") "roll a d6" "You rolled 4");
    [reflexivity|vm_compute; reflexivity|vm_compute; reflexivity|
     lia|vm_compute; reflexivity].
Defined.

(** With [max_action_steps=1] the comment's "x2" and "+1" would give 3
    iterations; the agent has the default 10 and a model that keeps rolling
    runs through all 10. *)
Lemma max_iterations_ignores_allowance_witness :
  fst (@create_agent (demo []) false (Some 1%Z) (@started (demo []) demo_files))
  = inr (demo_agent 3 "1") /\
  max_iterations (demo_agent 3 "1") = 10 /\
  max_iterations (demo_agent 3 "1") <> Z.to_nat (1 * 2 + 1) /\
  length (steps (@react_loop (demo []) (demo_agent 3 "1") [] "loop"
                   (max_iterations (demo_agent 3 "1")) [])) = 10.
Proof.
  split; [vm_compute; reflexivity|].
  split; [|split; vm_compute; [lia|reflexivity]].
  apply (@max_iterations_ignores_allowance (demo []) false (Some 1%Z)
           (@started (demo []) demo_files)).
  vm_compute; reflexivity.
Defined.

Lemma store_flushed_on_termination_witness :
  @module_init (demo []) demo_files = inr (@started (demo []) demo_files) /\
  files (@step (demo [])
           (@run (demo []) [on_chat_start 1; on_message 1 "roll a d6"]
              (@started (demo []) demo_files)) (on_chat_end 1)) !! "chat_store.json"
  = Some "{other}".
Proof.
  split; [reflexivity|].
  destruct (@store_flushed_on_termination (demo []) demo_files
              (@started (demo []) demo_files)
              [on_chat_start 1; on_message 1 "roll a d6"] 1 eq_refl)
    as ((_ & _ & Hfile & _) & _).
  etransitivity; [exact Hfile|]. vm_compute. reflexivity.
Defined.

Lemma tool_set_fixed_witness :
  user_session (@run (demo []) [on_chat_start 1] (@started (demo []) demo_files)) !! 1
  = Some (demo_agent 3 "5") /\
  map fn (tools (demo_agent 3 "5")) = [suggest_choices; roll_a_dice; roll_a_skill] /\
  forall agent',
    user_session (@run (demo []) [on_message 1 "roll a d6"; on_chat_start 1]
                    (@run (demo []) [on_chat_start 1] (@started (demo []) demo_files)))
      !! 1 = Some agent' ->
    tools agent' = tools (demo_agent 3 "5").
Proof.
  split; [vm_compute; reflexivity|].
  destruct (@tool_set_fixed (demo []) demo_files (@started (demo []) demo_files)
              [on_chat_start 1] 1 (demo_agent 3 "5") eq_refl)
    as (Hthree & _ & _ & _ & Hlater); [vm_compute; reflexivity|].
  split; [exact Hthree|]. intros agent'. apply Hlater.
Defined.

(** In the terminal: one message and then Ctrl-C persists the store; one
    message and then "exit" persists nothing, and neither does the end of
    the input, whose [EOFError] goes on. *)
Lemma terminal_persists_iff_interrupt_witness :
  io (snd (@terminal_main (demo [Line "roll a d6"; CtrlC])
             (@started (demo []) demo_files)))
  = [Loaded "chat_store.json"; Persisted "chat_store.json" "{other}"] /\
  (fst (@terminal_main (demo [Line "roll a d6"; Line "exit"])
          (@started (demo []) demo_files)) = inr tt /\
   io (snd (@terminal_main (demo [Line "roll a d6"; Line "exit"])
              (@started (demo []) demo_files))) = [Loaded "chat_store.json"]) /\
  (fst (@terminal_main (demo [Line "roll a d6"]) (@started (demo []) demo_files))
   = inl (Exception "EOFError" "EOF when reading a line") /\
   io (snd (@terminal_main (demo [Line "roll a d6"])
              (@started (demo []) demo_files))) = [Loaded "chat_store.json"]).
Proof.
  split; [|split].
  - destruct (@terminal_persists_iff_interrupt (demo [Line "roll a d6"; CtrlC])
                (@started (demo []) demo_files) (demo_agent 3 "5"))
      as (Hint & _ & _); [vm_compute; reflexivity|].
    destruct Hint as (_ & Hio & _); [vm_compute; reflexivity|].
    etransitivity; [exact Hio|]. vm_compute. reflexivity.
  - destruct (@terminal_persists_iff_interrupt (demo [Line "roll a d6"; Line "exit"])
                (@started (demo []) demo_files) (demo_agent 3 "5"))
      as (_ & Hother & _); [vm_compute; reflexivity|].
    rewrite Hother by (vm_compute; discriminate).
    split; vm_compute; reflexivity.
  - destruct (@terminal_persists_iff_interrupt (demo [Line "roll a d6"])
                (@started (demo []) demo_files) (demo_agent 3 "5"))
      as (_ & Hother & _); [vm_compute; reflexivity|].
    rewrite Hother by (vm_compute; discriminate).
    split; vm_compute; reflexivity.
Defined.

Lemma front_ends_substitute_5_witness :
  fst (@factory (demo []) 1 (@started (demo []) demo_files)) = inr tt /\
  (exists agent,
     user_session (snd (@factory (demo []) 1 (@started (demo []) demo_files))) !! 1
     = Some agent /\
     system_prompt_of agent
     = "You are the keeper. You may take at most 5 actions per turn.") /\
  fst (@create_agent (demo [CtrlC]) false None (@started (demo []) demo_files))
  = inr (demo_agent 3 "5") /\
  @terminal_main (demo [CtrlC]) (@started (demo []) demo_files)
  = @repl_and_flush (demo [CtrlC]) (demo_agent 3 "5")
      (snd (@create_agent (demo [CtrlC]) false None (@started (demo []) demo_files))) /\
  system_prompt_of (demo_agent 3 "5")
  = "You are the keeper. You may take at most 5 actions per turn.".
Proof.
  destruct (@front_ends_substitute_5 (demo []) 1 (@started (demo []) demo_files)
              demo_prompt) as (Hweb & _); [vm_compute; reflexivity|].
  destruct (@front_ends_substitute_5 (demo [CtrlC]) 1 (@started (demo []) demo_files)
              demo_prompt) as (_ & Hterm); [vm_compute; reflexivity|].
  split; [vm_compute; reflexivity|]. split.
  - destruct Hweb as (agent & Hs & Hp); [vm_compute; reflexivity|].
    exists agent. split; [exact Hs|]. rewrite Hp. vm_compute. reflexivity.
  - split; [vm_compute; reflexivity|].
    destruct (Hterm (demo_agent 3 "5")) as (Hm & Hp); [vm_compute; reflexivity|].
    split; [exact Hm|]. etransitivity; [exact Hp|]. vm_compute. reflexivity.
Defined.

(** A web session has started; building a terminal-style agent afterwards
    replaces the manager with one without the Chainlit handler, and the
    session keeps its agent. *)
Lemma create_agent_replaces_callback_manager_witness :
  @module_init (demo []) demo_files = inr (@started (demo []) demo_files) /\
  handlers (Settings_callback_manager
              (@run (demo []) [on_chat_start 1] (@started (demo []) demo_files)))
  = [LlamaDebugHandler "debug"; OpenInferenceTraceCallbackHandler;
     LlamaIndexCallbackHandler] /\
  handlers (Settings_callback_manager
              (snd (@create_agent (demo []) false None
                      (@run (demo []) [on_chat_start 1]
                         (@started (demo []) demo_files)))))
  = [LlamaDebugHandler "debug"; OpenInferenceTraceCallbackHandler] /\
  user_session (snd (@create_agent (demo []) false None
                       (@run (demo []) [on_chat_start 1]
                          (@started (demo []) demo_files))))
  = user_session (@run (demo []) [on_chat_start 1] (@started (demo []) demo_files)).
Proof.
  split; [reflexivity|]. split; [vm_compute; reflexivity|].
  destruct (@create_agent_replaces_callback_manager (demo []) demo_files
              (@started (demo []) demo_files) [on_chat_start 1] false None eq_refl)
    as (Hh & _ & _ & _ & _ & _ & Hus).
  split; [exact Hh|exact Hus].
Defined.

(** * Further properties of the constructors and the handlers *)

Section Handlers.
Context `{External}.

(** *** One step of the web front-end, field by field *)

Lemma factory_frame sid w :
  let w' := snd (factory sid w) in
  files w' = files w /\ io w' = io w /\ log w' = log w /\ sent w' = sent w /\
  stores w' = stores w /\ chat_store w' = chat_store w /\
  chat_memory w' = chat_memory w /\ next_id w' = S (S (next_id w)) /\
  logger_levels w' = <["debug" := DEBUG]> (logger_levels w) /\
  forall sid', sid' <> sid -> user_session w' !! sid' = user_session w !! sid'.
Proof.
  rewrite factory_run.
  destruct (create_agent_world true None w)
    as (Ef & Eio & El & Es & Est & Ecs & Ecm & Eus & Eid & Elv & _).
  destruct (create_agent true None w) as [[e|a] w1]; cbn [fst snd] in *;
    cbn [files io log sent stores chat_store chat_memory next_id logger_levels
         user_session set_user_session];
    repeat split; try assumption; intros sid' Hne; rewrite Eus;
    [reflexivity|apply lookup_insert_ne; congruence].
Qed.

Lemma step_io w ev :
  io (step w ev)
  = io w ++ (if is_end ev
             then [Persisted "chat_store.json" (to_json (store_at w (chat_store w)))]
             else []).
Proof.
  destruct ev as [sid|sid text|sid]; unfold step, handle; cbn [is_end].
  - destruct (factory_frame sid w) as (_ & -> & _). symmetry; apply app_nil_r.
  - destruct (main_frame sid text w) as (_ & -> & _). symmetry; apply app_nil_r.
  - rewrite cleanup_run. reflexivity.
Qed.

Lemma step_files w ev :
  files (step w ev)
  = if is_end ev
    then <["chat_store.json" := to_json (store_at w (chat_store w))]> (files w)
    else files w.
Proof.
  destruct ev as [sid|sid text|sid]; unfold step, handle; cbn [is_end].
  - apply factory_frame.
  - apply main_frame.
  - rewrite cleanup_run. reflexivity.
Qed.

Lemma run_cons ev evs w : run (ev :: evs) w = run evs (step w ev).
Proof. reflexivity. Qed.

Lemma step_start w sid : step w (on_chat_start sid) = snd (factory sid w).
Proof. reflexivity. Qed.

Lemma handle_start w sid : handle (on_chat_start sid) w = factory sid w.
Proof. reflexivity. Qed.

(** *** The allowance, for every value *)

(** X1: whatever integer [max_action_steps] is (left out, zero, negative:
    nothing is validated), the system prompt of the agent is the template
    with the placeholder replaced by its decimal text; no "{allowance}" is
    left, and the text is there when the template held a placeholder. *)
Theorem system_prompt_for_any_allowance (b : bool) (n : option Z) (w : World)
    (template : string) (agent : AgentRunner)
    (Hfile : files w !! "prompts/system_prompt.md" = Some template)
    (Hagent : fst (create_agent b n w) = inr agent) :
  system_prompt_of agent
  = Str.replace "{allowance}" (Str.str_int (default 5%Z n)) template /\
  Str.contains "{allowance}" (system_prompt_of agent) = false /\
  (Str.contains "{allowance}" template = true ->
   Str.contains (Str.str_int (default 5%Z n)) (system_prompt_of agent) = true).
Proof.
  apply create_agent_returned in Hagent as (template' & Hfile' & _ & ->).
  rewrite Hfile in Hfile'. injection Hfile' as <-.
  erewrite system_prompt_of_override by reflexivity.
  split; [reflexivity|]. split; [apply allowance_replaced|apply allowance_present].
Qed.


(** *** A session that could not start *)

(** X4: when the template cannot be read, the session-start handler raises
    [FileNotFoundError] and binds no agent; a message of that session then
    raises [AttributeError] and changes nothing: no reply, no turn in the
    store. *)
Theorem message_after_failed_start (sid : nat) (text : string) (w : World)
    (Hfile : files w !! "prompts/system_prompt.md" = None)
    (Hfree : user_session w !! sid = None) :
  let w1 := step w (on_chat_start sid) in
  (exists msg, fst (handle (on_chat_start sid) w)
               = inl (Exception "FileNotFoundError" msg)) /\
  user_session w1 = user_session w /\
  fst (handle (on_message sid text) w1)
  = inl (Exception "AttributeError" "'NoneType' object has no attribute 'achat'") /\
  step w1 (on_message sid text) = w1.
Proof.
  intros w1. subst w1. unfold step, handle.
  pose proof (create_agent_result true None w) as Hr. rewrite Hfile in Hr.
  destruct (create_agent_world true None w)
    as (_ & _ & _ & _ & _ & _ & _ & Eus & _).
  rewrite factory_run.
  destruct (create_agent true None w) as [r w1]. cbn [fst snd] in *. subst r.
  cbn [fst snd]. split; [eexists; reflexivity|]. split; [exact Eus|].
  rewrite main_run, Eus, Hfree. split; reflexivity.
Qed.

(** X15: when [PromptTemplate] turns the substituted text down, the
    session-start handler raises that exception and binds no agent, but
    the callback manager has been replaced by then. *)
Theorem session_start_with_rejected_template (sid : nat) (w : World)
    (template : string) (e : PyExn)
    (Hfile : files w !! "prompts/system_prompt.md" = Some template)
    (Hbad : template_error (Str.replace "{allowance}" "5" template) = Some e) :
  fst (handle (on_chat_start sid) w) = inl e /\
  user_session (step w (on_chat_start sid)) = user_session w /\
  handlers (Settings_callback_manager (step w (on_chat_start sid)))
  = [LlamaDebugHandler "debug"; OpenInferenceTraceCallbackHandler;
     LlamaIndexCallbackHandler] /\
  manager_id (Settings_callback_manager (step w (on_chat_start sid))) = next_id w.
Proof.
  rewrite handle_start, step_start, factory_run.
  pose proof (create_agent_result true None w) as Hr.
  rewrite Hfile in Hr. cbn zeta in Hr.
  change (Str.str_int (default 5%Z None)) with "5" in Hr. rewrite Hbad in Hr.
  destruct (create_agent_world true None w)
    as (_ & _ & _ & _ & _ & _ & _ & Eus & _ & _ & Eman).
  destruct (create_agent true None w) as [r w1]. cbn [fst snd] in *. subst r.
  cbn [fst snd]. rewrite Eman. repeat split; try reflexivity. exact Eus.
Qed.

(** *** Flushing and starting again *)

(** X6: a store flushed by [cleanup] is the store of the next process,
    provided the loader reads back the text the serialiser makes of that
    store from any file system that holds it at "chat_store.json": the
    next start-up, on the files the flush left, succeeds without a warning,
    on the same store and with the same history in the memory buffer. *)
Theorem flush_then_restart (fs : gmap string string) (w0 : World)
    (evs : list Event)
    (Hinit : module_init fs = inr w0)
    (Hround : forall fs' : gmap string string,
        from_persist_path
          (<["chat_store.json" :=
               to_json (store_at (run evs w0) (chat_store (run evs w0)))]> fs')
          "chat_store.json"
        = inr (store_at (run evs w0) (chat_store (run evs w0)))) :
  exists w',
    module_init (files (snd (cleanup (run evs w0)))) = inr w' /\
    store_at w' (chat_store w') = store_at (run evs w0) (chat_store (run evs w0)) /\
    memory_get_all (chat_memory w') w'
    = memory_get_all (chat_memory (run evs w0)) (run evs w0) /\
    log w' = [].
Proof.
  destruct (reachable_inv fs w0 evs Hinit) as [Hmem _ _ _ _].
  rewrite cleanup_run. cbn [snd files set_io set_files set_log].
  unfold module_init, load_chat_store. rewrite Hround.
  eexists. split; [reflexivity|].
  unfold memory_get_all. rewrite Hmem.
  cbn [chat_store chat_memory log memory_store chat_store_key].
  assert (Hstore : forall (s : SimpleChatStore) (fs' : gmap string string)
                     io' lg st lv n cm mgr us,
            store_at {| files := fs'; io := io'; log := lg; sent := st;
                        logger_levels := lv; stores := {[0 := s]}; next_id := n;
                        chat_store := 0; chat_memory := cm;
                        Settings_callback_manager := mgr; user_session := us |} 0
            = s).
  { intros. unfold store_at. cbn [stores]. rewrite lookup_singleton_eq. reflexivity. }
  rewrite !Hstore. repeat split; reflexivity.
Qed.

(** *** What a run of the web front-end writes *)

(** X7: over any sequence of web events, the store is persisted once for
    every session end and at no other time, always to "chat_store.json". *)
Theorem one_persist_per_session_end (evs : list Event) (w : World) :
  exists texts,
    io (run evs w) = io w ++ map (Persisted "chat_store.json") texts /\
    length texts = count_ends evs.
Proof.
  revert w. induction evs as [|ev evs IH]; intros w.
  - exists []. split; [symmetry; apply app_nil_r|reflexivity].
  - rewrite run_cons. destruct (IH (step w ev)) as (texts & Hio & Hlen).
    rewrite Hio, step_io. unfold count_ends. cbn [List.filter].
    destruct (is_end ev).
    + exists (to_json (store_at w (chat_store w)) :: texts).
      rewrite <- app_assoc. split; [reflexivity|]. cbn. f_equal. exact Hlen.
    + exists texts. rewrite app_nil_r. split; [reflexivity|exact Hlen].
Qed.

Lemma run_files_without_end evs w :
  count_ends evs = 0 -> files (run evs w) = files w.
Proof.
  revert w. induction evs as [|ev evs IH]; intros w; [reflexivity|].
  rewrite run_cons. pose proof (step_files w ev) as Hstep.
  unfold count_ends in *. cbn [List.filter]. destruct (is_end ev).
  - cbn [length]. discriminate.
  - intros Hz. rewrite (IH _ Hz). exact Hstep.
Qed.

(** X8: no web event writes a file other than "chat_store.json" (the
    template in particular stays as it is), and before the first session
    end nothing is written at all: the turns of a process whose sessions
    never end are not on disk. *)
Theorem only_chat_store_written (evs : list Event) (w : World) :
  (forall path, path <> "chat_store.json" ->
     files (run evs w) !! path = files w !! path) /\
  (count_ends evs = 0 -> files (run evs w) = files w).
Proof.
  split; [|apply run_files_without_end].
  revert w. induction evs as [|ev evs IH]; intros w path Hpath; [reflexivity|].
  rewrite run_cons, (IH (step w ev) path Hpath), step_files.
  destruct (is_end ev); [|reflexivity].
  apply lookup_insert_ne. congruence.
Qed.

(** X13: the file holds the store as it was at the last session end;
    whatever the sessions do after it is in memory only. *)
Theorem file_holds_last_flush (evs evs' : list Event) (sid : nat) (w : World)
    (Hafter : count_ends evs' = 0) :
  files (run (evs ++ on_chat_end sid :: evs') w) !! "chat_store.json"
  = Some (to_json (store_at (run evs w) (chat_store (run evs w)))).
Proof.
  rewrite run_app, run_cons, (run_files_without_end evs' _ Hafter), step_files.
  apply lookup_insert_eq.
Qed.

Lemma step_sent w ev :
  sent (step w ev) = sent w \/
  exists sid text response,
    ev = on_message sid text /\ sent (step w ev) = sent w ++ [(sid, response)].
Proof.
  destruct ev as [sid|sid text|sid]; unfold step, handle.
  - left. apply factory_frame.
  - rewrite main_run. destruct (user_session w !! sid) as [a|]; [|left; reflexivity].
    rewrite achat_run. destruct (outcome _) as [e|response]; [left; reflexivity|].
    right. exists sid, text, response. split; reflexivity.
  - left. rewrite cleanup_run. reflexivity.
Qed.

(** X9: the web front-end sends at most one reply for every message it
    receives, and a reply goes to a session a message came from; session
    starts and ends send nothing. *)
Theorem replies_bounded_by_messages (evs : list Event) (w : World) :
  exists replies,
    sent (run evs w) = sent w ++ replies /\
    length replies <= count_messages evs /\
    forall sid response, (sid, response) ∈ replies ->
      exists text, on_message sid text ∈ evs.
Proof.
  revert w. induction evs as [|ev evs IH]; intros w.
  - exists []. split; [symmetry; apply app_nil_r|]. split; [cbn; lia|].
    intros sid response Hin. apply elem_of_nil in Hin. destruct Hin.
  - rewrite run_cons. destruct (IH (step w ev)) as (replies & Hsent & Hlen & Hfrom).
    destruct (step_sent w ev) as [Hstep|(sid & text & response & -> & Hstep)].
    + exists replies. rewrite Hsent, Hstep. split; [reflexivity|]. split.
      * unfold count_messages in *. cbn [List.filter].
        destruct (is_message ev); cbn [length]; lia.
      * intros sid response Hin. destruct (Hfrom sid response Hin) as [text Ht].
        exists text. apply elem_of_cons. right. exact Ht.
    + exists ((sid, response) :: replies). rewrite Hsent, Hstep, <- app_assoc.
      split; [reflexivity|]. split.
      * unfold count_messages in *. cbn [List.filter is_message length]. lia.
      * intros sid' response' [Heq|Hin]%elem_of_cons.
        -- injection Heq as -> ->. exists text. apply elem_of_cons. left. reflexivity.
        -- destruct (Hfrom sid' response' Hin) as [text' Ht].
           exists text'. apply elem_of_cons. right. exact Ht.
Qed.

(** *** What a run logs *)

Lemma module_init_logging fs w : module_init fs = inr w -> logging_configured w.
Proof.
  unfold module_init. destruct (load_chat_store fs) as [e|[store records]];
    [discriminate|]. intros [= <-]. split; reflexivity.
Qed.

Lemma logging_configured_step w ev :
  logging_configured w -> logging_configured (step w ev).
Proof.
  intros [Hroot Hmod]. unfold logging_configured.
  destruct ev as [sid|sid text|sid]; unfold step, handle.
  - destruct (factory_frame sid w) as (_ & _ & _ & _ & _ & _ & _ & _ & -> & _).
    rewrite !lookup_insert_ne by discriminate. split; assumption.
  - destruct (main_frame sid text w) as (_ & _ & _ & -> & _). split; assumption.
  - rewrite cleanup_run. split; assumption.
Qed.

Lemma step_log w ev :
  logging_configured w ->
  log (step w ev) = log w ++ (if is_end ev then [interrupted_record] else []).
Proof.
  intros [Hroot Hmod].
  destruct ev as [sid|sid text|sid]; unfold step, handle; cbn [is_end].
  - destruct (factory_frame sid w) as (_ & _ & -> & _). symmetry; apply app_nil_r.
  - destruct (main_frame sid text w) as (_ & _ & -> & _). symmetry; apply app_nil_r.
  - rewrite cleanup_run. cbn [snd log set_io set_files set_log].
    unfold emit, isEnabledFor. rewrite Hroot, Hmod. reflexivity.
Qed.

(** X10: with the logging set-up of the module, a run of the web front-end
    logs one "Interrupted. Persisting chat storage." warning for every
    session end and nothing else; [create_callback_manager] raising the
    "debug" logger to [DEBUG] at every session start leaves the module's own
    logger at the root level, so its debug messages stay off. *)
Theorem one_warning_per_session_end (fs : gmap string string) (w0 : World)
    (evs : list Event)
    (Hinit : module_init fs = inr w0) :
  log (run evs w0) = log w0 ++ repeat interrupted_record (count_ends evs) /\
  isEnabledFor (logger_levels (run evs w0)) module_name DEBUG = false /\
  isEnabledFor (logger_levels (run evs w0)) module_name WARNING = true.
Proof.
  apply module_init_logging in Hinit. clear fs.
  revert w0 Hinit. induction evs as [|ev evs IH]; intros w Hconf.
  - split; [symmetry; apply app_nil_r|].
    destruct Hconf as [Hroot Hmod]. unfold isEnabledFor. cbn [run foldl].
    rewrite Hroot, Hmod. split; reflexivity.
  - rewrite run_cons.
    destruct (IH (step w ev) (logging_configured_step w ev Hconf)) as (Hlog & Hlv).
    split; [|exact Hlv].
    rewrite Hlog, (step_log w ev Hconf). unfold count_ends. cbn [List.filter].
    destruct (is_end ev); [|rewrite app_nil_r; reflexivity].
    rewrite <- app_assoc. reflexivity.
Qed.

(** *** Sessions come and go, the history stays *)

(** The agent a successful session start binds is built over the module's
    memory buffer, and the start leaves the stores alone. *)
Lemma factory_bound_memory sid w agent :
  fst (factory sid w) = inr tt ->
  user_session (snd (factory sid w)) !! sid = Some agent ->
  memory agent = chat_memory w /\ stores (snd (factory sid w)) = stores w.
Proof.
  rewrite factory_run.
  pose proof (create_agent_returned true None w) as Hr.
  destruct (create_agent_world true None w) as (_ & _ & _ & _ & Est & _).
  destruct (create_agent true None w) as [[e|a] wa]; cbn [fst snd] in *;
    [discriminate|].
  intros _. destruct (Hr a eq_refl) as (template & _ & _ & ->).
  cbn [user_session stores set_user_session].
  rewrite lookup_insert_eq. intros [= <-]. split; [reflexivity|exact Est].
Qed.

(** X11: ending a session leaves the history in memory as it is, and the
    agent a session started afterwards is bound to reads all of it:
    nothing is reset between sessions. *)
Theorem new_session_reads_full_history (w : World) (sid sid' : nat)
    (agent : AgentRunner)
    (Hstart : fst (handle (on_chat_start sid') (step w (on_chat_end sid))) = inr tt)
    (Hbound : user_session (step (step w (on_chat_end sid)) (on_chat_start sid')) !! sid'
              = Some agent) :
  let w1 := step w (on_chat_end sid) in
  let w2 := step w1 (on_chat_start sid') in
  memory_get_all (chat_memory w1) w1 = memory_get_all (chat_memory w) w /\
  memory_get_all (memory agent) w2 = memory_get_all (chat_memory w) w.
Proof.
  cbv zeta. rewrite handle_start in Hstart. rewrite !step_start in *.
  destruct (factory_bound_memory sid' _ agent Hstart Hbound) as (Hm & Est2).
  clear Hstart Hbound.
  assert (Hw1 : stores (step w (on_chat_end sid)) = stores w /\
                chat_memory (step w (on_chat_end sid)) = chat_memory w).
  { unfold step, handle. rewrite cleanup_run. split; reflexivity. }
  destruct Hw1 as (Est1 & Ecm1).
  split; unfold memory_get_all, store_at;
    rewrite ?Hm, ?Est2, Est1, Ecm1; reflexivity.
Qed.

(** In a run, an agent is bound only after the template was read and
    accepted, and the template stays as it was. *)
Lemma bound_agent_template evs w :
  ((exists sid a, user_session w !! sid = Some a) ->
   exists template,
     files w !! "prompts/system_prompt.md" = Some template /\
     template_error (Str.replace "{allowance}" "5" template) = None) ->
  (exists sid a, user_session (run evs w) !! sid = Some a) ->
  exists template,
    files (run evs w) !! "prompts/system_prompt.md" = Some template /\
    template_error (Str.replace "{allowance}" "5" template) = None.
Proof.
  revert w. induction evs as [|ev evs IH]; intros w Hw; [exact Hw|].
  rewrite run_cons. apply IH. clear IH.
  destruct ev as [sid|sid text|sid]; unfold step, handle.
  - destruct (factory_frame sid w) as (Ef & _). rewrite Ef.
    rewrite factory_run.
    pose proof (create_agent_returned true None w) as Hr.
    destruct (create_agent_world true None w)
      as (_ & _ & _ & _ & _ & _ & _ & Eus & _).
    destruct (create_agent true None w) as [[e|a] w1]; cbn [fst snd] in *.
    + rewrite Eus. exact Hw.
    + intros _. destruct (Hr a eq_refl) as (template & Hfile & Hok & _).
      exists template. split; [exact Hfile|exact Hok].
  - destruct (main_frame sid text w) as (-> & _ & _ & _ & _ & _ & _ & _ & ->).
    exact Hw.
  - rewrite cleanup_run. cbn [snd files user_session set_io set_files set_log].
    rewrite lookup_insert_ne by discriminate. exact Hw.
Qed.

(** X12: a second start event for a session that already has an agent
    binds a new agent object in its place; the new agent has the same
    tools and iteration limit and reads the same memory. *)
Theorem restarted_session_gets_new_agent (fs : gmap string string) (w0 : World)
    (evs : list Event) (sid : nat) (agent : AgentRunner) (template : string)
    (Hinit : module_init fs = inr w0)
    (Hbound : user_session (run evs w0) !! sid = Some agent)
    (Hfile : files (run evs w0) !! "prompts/system_prompt.md" = Some template) :
  exists agent',
    user_session (step (run evs w0) (on_chat_start sid)) !! sid = Some agent' /\
    agent_id agent' <> agent_id agent /\
    memory agent' = memory agent /\
    tools agent' = tools agent /\
    max_iterations agent' = max_iterations agent.
Proof.
  destruct (reachable_inv fs w0 evs Hinit) as [_ Hag _ _ _].
  destruct (Hag sid agent Hbound) as (Htools & Hmemory & Hmax & Hid).
  destruct (bound_agent_template evs w0) as (template' & Hfile' & Hok).
  { intros (sid0 & a0 & Hs0). exfalso.
    unfold module_init in Hinit.
    destruct (load_chat_store fs) as [e|[store records]]; [discriminate|].
    injection Hinit as <-. cbn [user_session] in Hs0.
    rewrite lookup_empty in Hs0. discriminate. }
  { eauto. }
  rewrite Hfile in Hfile'. injection Hfile' as <-.
  unfold step, handle. rewrite factory_run.
  pose proof (create_agent_result true None (run evs w0)) as Hr.
  rewrite Hfile in Hr. cbn zeta in Hr.
  change (Str.str_int (default 5%Z None)) with "5" in Hr. rewrite Hok in Hr.
  destruct (create_agent true None (run evs w0)) as [r wa]. cbn [fst snd] in *.
  subst r. eexists. cbn [snd user_session set_user_session].
  split; [apply lookup_insert_eq|].
  cbn [agent_id memory tools max_iterations].
  repeat split; try congruence. lia.
Qed.

End Handlers.

(** * The further properties on concrete runs *)

(** The allowance -3 goes into the prompt as it is. *)
Lemma system_prompt_for_any_allowance_witness :
  fst (@create_agent (demo []) true (Some (-3)%Z) (@started (demo []) demo_files))
  = inr (demo_agent 3 "-3") /\
  system_prompt_of (demo_agent 3 "-3")
  = "You are the keeper. You may take at most -3 actions per turn." /\
  Str.contains "{allowance}" (system_prompt_of (demo_agent 3 "-3")) = false.
Proof.
  split; [vm_compute; reflexivity|].
  destruct (@system_prompt_for_any_allowance (demo []) true (Some (-3)%Z)
              (@started (demo []) demo_files) demo_prompt (demo_agent 3 "-3"))
    as (Hp & Hno & _); [vm_compute; reflexivity|vm_compute; reflexivity|].
  split; [|exact Hno]. etransitivity; [exact Hp|]. vm_compute. reflexivity.
Defined.


(** No template on disk: the start of session 1 fails and its message is
    turned away. *)
Lemma message_after_failed_start_witness :
  user_session (@step (demo []) (@started (demo []) ∅) (on_chat_start 1))
  = user_session (@started (demo []) ∅) /\
  fst (@handle (demo []) (on_message 1 "roll a d6")
         (@step (demo []) (@started (demo []) ∅) (on_chat_start 1)))
  = inl (Exception "AttributeError" "'NoneType' object has no attribute 'achat'").
Proof.
  destruct (@message_after_failed_start (demo []) 1 "roll a d6" (@started (demo []) ∅))
    as (_ & Hus & Hraise & _); [vm_compute; reflexivity|vm_compute; reflexivity|].
  split; [exact Hus|exact Hraise].
Defined.

Lemma module_init_not_caught_witness :
  @module_init demo_interrupted demo_files = inl KeyboardInterrupt.
Proof.
  apply (@module_init_not_caught demo_interrupted demo_files KeyboardInterrupt);
    reflexivity.
Defined.

(** A process with one turn in session 1 flushes; the next process starts
    on that turn. *)
Lemma flush_then_restart_witness :
  exists w',
    @module_init demo_lines
      (files (snd (@cleanup demo_lines
                     (@run demo_lines [on_chat_start 1; on_message 1 "roll a d6"]
                        (@started demo_lines demo_files)))))
    = inr w' /\
    memory_get_all (chat_memory w') w'
    = [ {| role := USER; content := "roll a d6" |};
        {| role := ASSISTANT; content := "You rolled 4" |} ] /\
    log w' = [].
Proof.
  destruct (@flush_then_restart demo_lines demo_files
              (@started demo_lines demo_files)
              [on_chat_start 1; on_message 1 "roll a d6"])
    as (w' & Hinit & _ & Hhist & Hlog).
  - vm_compute; reflexivity.
  - intros fs'. cbn [from_persist_path demo_lines].
    unfold lines_from_persist_path. rewrite lookup_insert_eq.
    vm_compute. reflexivity.
  - exists w'. split; [exact Hinit|]. split; [|exact Hlog].
    etransitivity; [exact Hhist|]. vm_compute. reflexivity.
Defined.

Lemma only_chat_store_written_witness :
  files (@run (demo []) [on_chat_start 1; on_message 1 "roll a d6"; on_chat_end 1]
           (@started (demo []) demo_files)) !! "prompts/system_prompt.md"
  = Some demo_prompt /\
  files (@run (demo []) [on_chat_start 1; on_message 1 "roll a d6"]
           (@started (demo []) demo_files))
  = demo_files.
Proof.
  split.
  - destruct (@only_chat_store_written (demo [])
                [on_chat_start 1; on_message 1 "roll a d6"; on_chat_end 1]
                (@started (demo []) demo_files)) as [Hother _].
    etransitivity; [apply Hother; discriminate|]. vm_compute. reflexivity.
  - destruct (@only_chat_store_written (demo [])
                [on_chat_start 1; on_message 1 "roll a d6"]
                (@started (demo []) demo_files)) as [_ Hnone].
    etransitivity; [apply Hnone; reflexivity|]. vm_compute. reflexivity.
Defined.

(** The session ends, then one more turn: the file still holds the store
    of the session end, which had no turn yet. *)
Lemma file_holds_last_flush_witness :
  files (@run (demo [])
           ([on_chat_start 1] ++ on_chat_end 1 :: [on_message 1 "roll a d6"])
           (@started (demo []) demo_files)) !! "chat_store.json"
  = Some "{}" /\
  memory_get_all (chat_memory (@started (demo []) demo_files))
    (@run (demo [])
       ([on_chat_start 1] ++ on_chat_end 1 :: [on_message 1 "roll a d6"])
       (@started (demo []) demo_files))
  = [ {| role := USER; content := "roll a d6" |};
      {| role := ASSISTANT; content := "You rolled 4" |} ].
Proof.
  split; [|vm_compute; reflexivity].
  etransitivity;
    [apply (@file_holds_last_flush (demo []) [on_chat_start 1]
              [on_message 1 "roll a d6"] 1 (@started (demo []) demo_files));
     reflexivity|].
  vm_compute. reflexivity.
Defined.

Lemma replies_bounded_by_messages_witness :
  exists replies,
    sent (@run (demo [])
            [on_chat_start 1; on_message 1 "roll a d6"; on_message 2 "hello"; on_chat_end 1]
            (@started (demo []) demo_files))
    = replies /\
    length replies <= 2.
Proof.
  destruct (@replies_bounded_by_messages (demo [])
              [on_chat_start 1; on_message 1 "roll a d6"; on_message 2 "hello"; on_chat_end 1]
              (@started (demo []) demo_files)) as (replies & Hsent & Hlen & _).
  exists replies. split; [exact Hsent|exact Hlen].
Defined.

Lemma one_warning_per_session_end_witness :
  @module_init (demo []) demo_files = inr (@started (demo []) demo_files) /\
  log (@run (demo []) [on_chat_start 1; on_chat_end 1; on_chat_start 2; on_chat_end 2]
         (@started (demo []) demo_files))
  = log (@started (demo []) demo_files) ++ [interrupted_record; interrupted_record].
Proof.
  split; [reflexivity|].
  apply (@one_warning_per_session_end (demo []) demo_files
           (@started (demo []) demo_files)
           [on_chat_start 1; on_chat_end 1; on_chat_start 2; on_chat_end 2]).
  reflexivity.
Defined.

(** Session 1 has a turn and ends; session 2 starts and reads the turn. *)
Lemma new_session_reads_full_history_witness :
  user_session
    (@step (demo [])
       (@step (demo [])
          (@run (demo []) [on_chat_start 1; on_message 1 "roll a d6"]
             (@started (demo []) demo_files)) (on_chat_end 1))
       (on_chat_start 2)) !! 2 = Some (demo_agent 5 "5") /\
  memory_get_all (memory (demo_agent 5 "5"))
    (@step (demo [])
       (@step (demo [])
          (@run (demo []) [on_chat_start 1; on_message 1 "roll a d6"]
             (@started (demo []) demo_files)) (on_chat_end 1))
       (on_chat_start 2))
  = [ {| role := USER; content := "roll a d6" |};
      {| role := ASSISTANT; content := "You rolled 4" |} ].
Proof.
  split; [vm_compute; reflexivity|].
  destruct (@new_session_reads_full_history (demo [])
              (@run (demo []) [on_chat_start 1; on_message 1 "roll a d6"]
                 (@started (demo []) demo_files)) 1 2 (demo_agent 5 "5"))
    as (_ & Hm); [vm_compute; reflexivity|vm_compute; reflexivity|].
  etransitivity; [exact Hm|]. vm_compute. reflexivity.
Defined.

Lemma restarted_session_gets_new_agent_witness :
  user_session (@run (demo []) [on_chat_start 1] (@started (demo []) demo_files)) !! 1
  = Some (demo_agent 3 "5") /\
  exists agent',
    user_session (@step (demo [])
                    (@run (demo []) [on_chat_start 1] (@started (demo []) demo_files))
                    (on_chat_start 1)) !! 1 = Some agent' /\
    agent_id agent' <> 3 /\
    memory agent' = memory (demo_agent 3 "5").
Proof.
  split; [vm_compute; reflexivity|].
  destruct (@restarted_session_gets_new_agent (demo []) demo_files
              (@started (demo []) demo_files) [on_chat_start 1] 1
              (demo_agent 3 "5") demo_prompt)
    as (agent' & Hs & Hid & Hm & _);
    [reflexivity|vm_compute; reflexivity|vm_compute; reflexivity|].
  exists agent'. split; [exact Hs|]. split; [exact Hid|exact Hm].
Defined.

Lemma terminal_main_without_template_witness :
  (exists e, fst (@terminal_main (demo [CtrlC]) (@started (demo []) ∅)) = inl e /\
             is_Exception e = true) /\
  io (snd (@terminal_main (demo [CtrlC]) (@started (demo []) ∅)))
  = [Loaded "chat_store.json"].
Proof.
  destruct (@terminal_main_without_template (demo [CtrlC]) (@started (demo []) ∅))
    as (He & Hio & _); [vm_compute; reflexivity|].
  split; [exact He|]. etransitivity; [exact Hio|]. vm_compute. reflexivity.
Defined.

(** The scan of the examples on texts with a brace left open. *)
Example demo_template_error_examples :
  demo_template_error "At most 5 steps, use {"
  = Some (value_error "Single '{' encountered in format string") /\
  demo_template_error "Reply with { only."
  = Some (value_error "expected '}' before end of string") /\
  demo_template_error "Use {{braces}} and {name} freely." = None.
Proof. vm_compute. auto. Qed.

(** The template ends in an open brace: the start of session 1 raises the
    [ValueError] of the parser. *)
Lemma session_start_with_rejected_template_witness :
  fst (@handle (demo []) (on_chat_start 1)
         (@started (demo [])
            {[ "prompts/system_prompt.md" := "At most {allowance} steps, use {" ]}))
  = inl (value_error "Single '{' encountered in format string") /\
  user_session (@step (demo [])
                  (@started (demo [])
                     {[ "prompts/system_prompt.md" := "At most {allowance} steps, use {" ]})
                  (on_chat_start 1))
  = user_session (@started (demo [])
                    {[ "prompts/system_prompt.md" := "At most {allowance} steps, use {" ]}).
Proof.
  destruct (@session_start_with_rejected_template (demo []) 1
              (@started (demo [])
                 {[ "prompts/system_prompt.md" := "At most {allowance} steps, use {" ]})
              "At most {allowance} steps, use {"
              (value_error "Single '{' encountered in format string"))
    as (Hraise & Hus & _); [vm_compute; reflexivity|vm_compute; reflexivity|].
  split; [exact Hraise|exact Hus].
Defined.
